(** * traffic.py: sampling, cleaning and the five aggregations

    A shallow embedding of [traffic.py], a top-to-bottom reporting script:
    load a CSV, draw a seeded sample, clean a handful of columns, derive
    [Hour] and [DayOfWeek], and hand five grouped counts and one point list
    to the plotting and mapping libraries.

    What the script computes itself is embedded as it is written.  What it
    delegates to pandas, numpy and seaborn is embedded from those libraries'
    documented behaviour, each definition naming the call it stands for. *)

From Stdlib Require Import List ZArith QArith String Ascii Bool Lia.
From Stdlib Require Import Permutation Sorted.
Import ListNotations.

Local Open Scope Z_scope.

Set Implicit Arguments.

(** ** Values

    A cell of a data frame is either a value or missing (NaN, None, NaT):
    [option].  Floats are only ever passed along, so a coordinate is a
    rational.  A parsed timestamp is what pandas stores for
    [datetime64[ns]]: nanoseconds since 1970-01-01T00:00:00. *)

Definition Timestamp := Z.

(** One line of the table, restricted to [columns_to_keep] (line 49-53).
    [T] is the type of the [Start_Time] cells: a [string] as read from the
    file, a [Timestamp] once line 59 has replaced the column. *)
Record Row (T : Type) : Type := mkRow {
  Start_Time        : option T;
  Start_Lat         : option Q;
  Start_Lng         : option Q;
  Severity          : option Z;
  Weather_Condition : option string;
  Sunrise_Sunset    : option string;
  Junction          : option bool;
  Crossing          : option bool;
  Traffic_Signal    : option bool
}.

(** [df_clean] after lines 59-63: the parsed frame with the two derived
    columns attached. *)
Record CleanRow : Type := mkClean {
  data      : Row Timestamp;
  Hour      : option Z;
  DayOfWeek : option string
}.

Definition notna {A : Type} (c : option A) : bool :=
  match c with Some _ => true | None => false end.

(** [Series.dropna()] on one column. *)
Fixpoint dropna {A : Type} (col : list (option A)) : list A :=
  match col with
  | [] => []
  | Some v :: col' => v :: dropna col'
  | None :: col' => dropna col'
  end.

(** ** Errors, output and control flow

    The script prints, shows charts, saves a map, raises and exits.  A
    computation is the list of things it did, in order, and either the
    exception that stopped it or its value. *)

Inductive exn : Type :=
| FileNotFoundError
| ValueError
| IndexError
| SystemExit (code : option Z).

Inductive label : Type :=
| LNum (n : Z)
| LStr (s : string).

Inductive event : Type :=
| Printed (line : string)
| Shown (title : string) (bars : list (label * nat))
| Saved (filename : string) (heat_data : list (Q * Q)).

Definition Script (A : Type) : Type := (list event * (exn + A))%type.

Definition ret {A : Type} (a : A) : Script A := ([], inr a).

Definition raise {A : Type} (e : exn) : Script A := ([], inl e).

Definition bind {A B : Type} (m : Script A) (k : A -> Script B) : Script B :=
  match m with
  | (out, inl e) => (out, inl e)
  | (out, inr a) => let (out', r) := k a in (out ++ out', r)
  end.

Declare Scope script_scope.
Delimit Scope script_scope with script.
Notation "x <- m ;; k" := (bind m (fun x => k))
  (at level 61, m at next level, right associativity) : script_scope.
Notation "m ;; k" := (bind m (fun _ => k))
  (at level 61, right associativity) : script_scope.

(** [try: body except FileNotFoundError: handler]: only that exception is
    caught, any other one passes through. *)
Definition try_except_FileNotFoundError {A : Type}
    (body : Script A) (handler : Script A) : Script A :=
  match body with
  | (out, inl FileNotFoundError) => let (out', r) := handler in (out ++ out', r)
  | other => other
  end.

Definition print (line : string) : Script unit := ([Printed line], inr tt).

(** [plt.show()] on the figure just drawn, and [accident_map.save(...)]. *)
Definition show (title : string) (bars : list (label * nat)) : Script unit :=
  ([Shown title bars], inr tt).

Definition save (filename : string) (heat_data : list (Q * Q)) : Script unit :=
  ([Saved filename heat_data], inr tt).

(** The builtin [exit()] raises [SystemExit] with the code it is given;
    line 43 gives none. *)
Definition exit {A : Type} (code : option Z) : Script A :=
  raise (SystemExit code).

(** What the interpreter returns to the shell: 0 after the last statement,
    the code of a [SystemExit] ([None] counts as success), 1 after any
    other uncaught exception. *)
Definition exit_status {A : Type} (r : exn + A) : Z :=
  match r with
  | inr _ => 0
  | inl (SystemExit None) => 0
  | inl (SystemExit (Some c)) => c
  | inl _ => 1
  end.

(** ** The libraries' side

    [Series.dt.hour] and [Series.dt.day_name()] read the hour of the day and
    the weekday off the nanosecond count; day 0 of the epoch was a
    Thursday, and pandas numbers weekdays from Monday. *)

Definition NS_PER_HOUR : Z := 3600 * 1000000000.
Definition NS_PER_DAY : Z := 24 * NS_PER_HOUR.

Definition DAYS : list string :=
  ["Monday"; "Tuesday"; "Wednesday"; "Thursday"; "Friday"; "Saturday";
   "Sunday"]%string.

Definition dt_hour (ts : Timestamp) : Z := (ts / NS_PER_HOUR) mod 24.

Definition dt_weekday (ts : Timestamp) : Z := (ts / NS_PER_DAY + 3) mod 7.

Definition dt_day_name (ts : Timestamp) : string :=
  nth (Z.to_nat (dt_weekday ts)) DAYS EmptyString.

(** First-seen order of the distinct values ([Series.unique()], and the
    key order of the hash table behind [value_counts]). *)
Fixpoint unique {A : Type} (eq_dec : forall x y : A, {x = y} + {x <> y})
    (l : list A) : list A :=
  match l with
  | [] => []
  | x :: l' => x :: remove eq_dec x (unique eq_dec l')
  end.

(** A sort that keeps equal elements in the order they came in.  [x] is
    put in front of the first element it may precede. *)
Fixpoint insert {A : Type} (before : A -> A -> bool) (x : A) (l : list A)
    : list A :=
  match l with
  | [] => [x]
  | y :: l' => if before x y then x :: y :: l' else y :: insert before x l'
  end.

Fixpoint sort {A : Type} (before : A -> A -> bool) (l : list A) : list A :=
  match l with
  | [] => []
  | x :: l' => insert before x (sort before l')
  end.

(** A labelled count, as a bar of a chart or an entry of a Series. *)
Definition Counts (K : Type) : Type := list (K * nat).

(** [by_count_desc p q]: [p] may stand before [q] when sorting by count,
    largest first. *)
Definition by_count_desc {K : Type} (p q : K * nat) : bool :=
  (snd q <=? snd p)%nat.

(** Sorting by count, largest first, equal counts left in the order they
    came in. *)
Definition stable_sort_desc {K : Type} (s : Counts K) : Counts K :=
  sort by_count_desc s.

(** [Series.nlargest(n)], [keep='first']: the [n] largest entries, largest
    first, earlier entries first among equals. *)
Definition nlargest {K : Type} (n : nat) (s : Counts K) : Counts K :=
  firstn n (stable_sort_desc s).

(** Counts that never go up, and counts that always go down, from one
    entry to any later one. *)
Definition descending {K : Type} (s : Counts K) : Prop :=
  StronglySorted (fun p q => (snd q <= snd p)%nat) s.

Definition strictly_descending {K : Type} (s : Counts K) : Prop :=
  StronglySorted (fun p q => (snd q < snd p)%nat) s.

(** ** What is taken from numpy and pandas as given

    Three things the script relies on are not pinned down by what it
    writes: which permutation the seeded generator draws, which strings the
    date parser accepts, and how [sort_values] orders entries of equal
    count (pandas sorts with numpy's default sort, which is not a stable
    one).  The pipeline takes them as a parameter. *)
Record Libraries : Type := mkLibraries {
  (** numpy's legacy generator, [RandomState(seed)] and
      [RandomState.permutation(n)]. *)
  RandomState : Type;
  RandomState_of_seed : Z -> RandomState;
  permutation : RandomState -> nat -> list nat;
  (** [pd.to_datetime] on one cell, given the column it stands in (pandas
      may guess the layout from the column); [None] is [NaT]. *)
  to_datetime_cell : list (option string) -> string -> option Timestamp;
  (** [Series.sort_values(ascending=False)] on counts labelled by strings. *)
  sort_values_desc : Counts string -> Counts string
}.

Arguments permutation : clear implicits.

(** What numpy and pandas do promise: [permutation(n)] is a permutation of
    [0 .. n-1], and a sorted Series has the entries it had, largest
    first. *)
Definition shuffles (L : Libraries) : Prop :=
  forall rs n, Permutation (permutation L rs n) (seq 0 n).

Definition sorts (L : Libraries) : Prop :=
  forall s, Permutation (sort_values_desc L s) s /\
            descending (sort_values_desc L s).

(** [Series.value_counts()]: missing values are left out, each distinct
    value is paired with how often it occurs, most frequent first. *)
Definition value_counts (L : Libraries) (col : list (option string))
    : Counts string :=
  let values := dropna col in
  sort_values_desc L
    (map (fun k => (k, count_occ string_dec values k))
         (unique string_dec values)).

(** [DataFrame[col].sum()] of a boolean column: [True] is 1, [False] is 0,
    missing cells are skipped. *)
Definition column_sum (col : list (option bool)) : nat :=
  fold_left (fun acc c =>
               match c with
               | Some true => acc + 1
               | Some false => acc + 0
               | None => acc
               end%nat) col 0%nat.

(** The levels [sns.countplot] puts on its categorical axis.  A frame
    without rows gets none: [countplot] returns before it sets any, whether
    or not an [order] is given.  Otherwise they are seaborn's
    [categorical_order]: [order] when it is given; else the distinct
    non-missing values, in first-seen order, sorted when the column is
    numeric. *)
Definition categorical_order {K : Type}
    (eq_dec : forall x y : K, {x = y} + {x <> y})
    (numeric : option (K -> K -> bool))
    (order : option (list K)) (col : list (option K)) : list K :=
  match col with
  | [] => []
  | _ :: _ =>
      match order with
      | Some levels => levels
      | None =>
          let levels := unique eq_dec (dropna col) in
          match numeric with
          | Some leb => sort leb levels
          | None => levels
          end
      end
  end.

(** [sns.countplot(x=col, order=order)].  On a frame without rows nothing
    is drawn ([if p.plot_data.empty: return ax]).  Otherwise there is one
    position per level, bearing the number of rows whose value is that
    level; rows whose value is missing or is not a level are not counted
    anywhere. *)
Definition countplot {K : Type} (eq_dec : forall x y : K, {x = y} + {x <> y})
    (numeric : option (K -> K -> bool))
    (order : option (list K)) (col : list (option K)) : Counts K :=
  match col with
  | [] => []
  | _ :: _ =>
      map (fun k => (k, count_occ eq_dec (dropna col) k))
          (categorical_order eq_dec numeric order col)
  end.

(** The height a chart shows at label [k]: nothing drawn is height 0. *)
Definition bar {K : Type} (eq_dec : forall x y : K, {x = y} + {x <> y})
    (k : K) (bars : Counts K) : nat :=
  list_sum
    (map snd (filter (fun p => if eq_dec (fst p) k then true else false) bars)).

(** ** Libraries to run the script on

    An instance of [Libraries] that computes: a generator whose shuffle is
    a rotation by its state, a parser for the layout of the dataset's
    [Start_Time] column, [YYYY-MM-DD HH:MM:SS], and the stable sort. *)

Definition seed_state (seed : Z) : Z := seed.

Definition rotation (state : Z) (n : nat) : list nat :=
  let k := Z.to_nat (state mod Z.of_nat n) in
  skipn k (seq 0 n) ++ firstn k (seq 0 n).

Definition digit (c : ascii) : option Z :=
  let n := Z.of_nat (nat_of_ascii c) in
  if (48 <=? n) && (n <=? 57) then Some (n - 48) else None.

Fixpoint digits (acc : Z) (cs : list ascii) : option Z :=
  match cs with
  | [] => Some acc
  | c :: cs' =>
      match digit c with
      | Some d => digits (10 * acc + d) cs'
      | None => None
      end
  end.

Definition is_leap (y : Z) : bool :=
  (y mod 4 =? 0) && (negb (y mod 100 =? 0) || (y mod 400 =? 0)).

Definition days_in_month (y m : Z) : Z :=
  if m =? 2 then (if is_leap y then 29 else 28)
  else if (m =? 4) || (m =? 6) || (m =? 9) || (m =? 11) then 30
  else 31.

(** Days from 1970-01-01 to the given date of the Gregorian calendar. *)
Definition days_from_civil (y m d : Z) : Z :=
  let y := if m <=? 2 then y - 1 else y in
  let era := y / 400 in
  let yoe := y - era * 400 in
  let doy := (153 * ((m + 9) mod 12) + 2) / 5 + d - 1 in
  let doe := yoe * 365 + yoe / 4 - yoe / 100 + doy in
  era * 146097 + doe - 719468.

Definition iso_datetime (s : string) : option Timestamp :=
  match list_ascii_of_string s with
  | [y1; y2; y3; y4; "-"; m1; m2; "-"; d1; d2; " ";
     h1; h2; ":"; n1; n2; ":"; s1; s2]%char =>
      match digits 0 [y1; y2; y3; y4], digits 0 [m1; m2], digits 0 [d1; d2],
            digits 0 [h1; h2], digits 0 [n1; n2], digits 0 [s1; s2] with
      | Some y, Some m, Some d, Some hh, Some mm, Some ss =>
          if (1 <=? m) && (m <=? 12) && (1 <=? d) && (d <=? days_in_month y m)
             && (hh <? 24) && (mm <? 60) && (ss <? 60)
          then Some ((days_from_civil y m d * 86400 + hh * 3600 + mm * 60 + ss)
                     * 1000000000)
          else None
      | _, _, _, _, _, _ => None
      end
  | _ => None
  end.

Definition iso (_ : list (option string)) (s : string) : option Timestamp :=
  iso_datetime s.

Definition demo : Libraries :=
  mkLibraries seed_state rotation iso (@stable_sort_desc string).

(** ** The script *)

Definition file_path : string := "US_Accidents_March23.csv".

Definition sample_size : Z := 100000.

Definition day_order : list string :=
  ["Monday"; "Tuesday"; "Wednesday"; "Thursday"; "Friday"; "Saturday";
   "Sunday"]%string.

(** The three columns of [road_features], each with its name. *)
Definition road_features : list (string * (Row Timestamp -> option bool)) :=
  [("Junction", @Junction Timestamp); ("Crossing", @Crossing Timestamp);
   ("Traffic_Signal", @Traffic_Signal Timestamp)]%string.

Definition map_filename : string := "accident_hotspots.html".

Definition nl (s : string) : string := String "010"%char s.

(** [pd.read_csv(path)]: the table a file holds, or [FileNotFoundError].
    The file system is the map from paths to the tables of the files that
    exist. *)
Definition read_csv (fs : string -> option (list (Row string)))
    (path : string) : Script (list (Row string)) :=
  match fs path with
  | Some df => ret df
  | None => raise FileNotFoundError
  end.

(** [DataFrame.take(indices)]: the rows at the given positions, in that
    order; a position outside the frame raises. *)
Fixpoint take {A : Type} (df : list A) (indices : list nat) : Script (list A) :=
  match indices with
  | [] => ret []
  | i :: indices' =>
      match nth_error df i with
      | Some r => bind (take df indices') (fun rows => ret (r :: rows))
      | None => raise IndexError
      end
  end.

(** Line 56, [dropna(subset=[...])]: a row stays when none of the five
    listed cells is missing. *)
Definition subset_notna (r : Row string) : bool :=
  notna (Start_Time r) && notna (Start_Lat r) && notna (Start_Lng r)
  && notna (Weather_Condition r) && notna (Sunrise_Sunset r).

Definition dropna_subset (df : list (Row string)) : list (Row string) :=
  filter subset_notna df.

Definition set_Start_Time {T U : Type} (r : Row T) (t : option U) : Row U :=
  mkRow t (Start_Lat r) (Start_Lng r) (Severity r) (Weather_Condition r)
        (Sunrise_Sunset r) (Junction r) (Crossing r) (Traffic_Signal r).

Definition set_Severity {T : Type} (r : Row T) (v : option Z) : Row T :=
  mkRow (Start_Time r) (Start_Lat r) (Start_Lng r) v (Weather_Condition r)
        (Sunrise_Sunset r) (Junction r) (Crossing r) (Traffic_Signal r).

(** Lines 62-63: the two derived columns; a missing timestamp gives a
    missing hour and a missing day name. *)
Definition derive (r : Row Timestamp) : CleanRow :=
  mkClean r (option_map dt_hour (Start_Time r))
            (option_map dt_day_name (Start_Time r)).

Definition parsed (c : CleanRow) : bool := notna (Start_Time (data c)).

(** *** The five aggregations and the point list (lines 70-129) *)

Definition by_hour (df_clean : list CleanRow) : Counts Z :=
  countplot Z.eq_dec (Some Z.leb) None (map Hour df_clean).

Definition by_day_of_week (df_clean : list CleanRow) : Counts string :=
  countplot string_dec None (Some day_order) (map DayOfWeek df_clean).

Definition weather_counts (L : Libraries) (df_clean : list CleanRow)
    : Counts string :=
  value_counts L (map (fun c => Weather_Condition (data c)) df_clean).

Definition by_weather (L : Libraries) (df_clean : list CleanRow)
    : Counts string :=
  nlargest 10 (weather_counts L df_clean).

Definition by_day_night (df_clean : list CleanRow) : Counts string :=
  countplot string_dec None None
    (map (fun c => Sunrise_Sunset (data c)) df_clean).

Definition by_road_feature (L : Libraries) (df_clean : list CleanRow)
    : Counts string :=
  sort_values_desc L
    (map (fun f => (fst f, column_sum (map (fun c => snd f (data c)) df_clean)))
         road_features).

Definition heat_data (df_clean : list CleanRow) : list (Q * Q) :=
  flat_map (fun c =>
              match Start_Lat (data c), Start_Lng (data c) with
              | Some lat, Some lng => [(lat, lng)]
              | _, _ => []
              end) df_clean.

Definition numbered (bars : Counts Z) : list (label * nat) :=
  map (fun p => (LNum (fst p), snd p)) bars.

Definition named (bars : Counts string) : list (label * nat) :=
  map (fun p => (LStr (fst p), snd p)) bars.

Local Open Scope string_scope.
Local Open Scope script_scope.
Local Open Scope Z_scope.

Section Pipeline.

Variable L : Libraries.

(** [RandomState.choice(a, size, replace=False)]. *)
Definition choice (rs : RandomState L) (a : nat) (size : Z)
    : Script (list nat) :=
  if size <? 0 then raise ValueError
  else if Z.of_nat a <? size then raise ValueError
  else ret (firstn (Z.to_nat size) (permutation L rs a)).

(** [df.sample(n=n, random_state=random_state)].  An integer
    [random_state] seeds a generator of its own; without one the draw
    comes from the generator of the [numpy.random] module, whatever state
    it is in. *)
Definition sample (module_state : RandomState L) (df : list (Row string))
    (n : Z) (random_state : option Z) : Script (list (Row string)) :=
  let rs := match random_state with
            | Some seed => RandomState_of_seed L seed
            | None => module_state
            end in
  sampled_indices <- choice rs (List.length df) n ;;
  take df sampled_indices.

(** [pd.to_datetime(column, errors='coerce')]. *)
Definition to_datetime (col : list (option string)) : list (option Timestamp) :=
  map (fun c => match c with
                | Some s => to_datetime_cell L col s
                | None => None
                end) col.

(** Line 59: the [Start_Time] column is replaced, cell by cell, by its
    parsed counterpart. *)
Definition parse_Start_Time (df : list (Row string)) : list (Row Timestamp) :=
  map (fun rt => set_Start_Time (fst rt) (snd rt))
      (combine df (to_datetime (map (@Start_Time string) df))).

(** Lines 53-63. *)
Definition clean (df_sample : list (Row string)) : list CleanRow :=
  let df_clean := df_sample in
  let df_clean := dropna_subset df_clean in
  let df_clean := parse_Start_Time df_clean in
  map derive df_clean.

(** Lines 22-43. *)
Definition load_and_sample (fs : string -> option (list (Row string)))
    (module_state : RandomState L) : Script (list (Row string)) :=
  try_except_FileNotFoundError
    (print "Loading data from 'US_Accidents_March23.csv'..." ;;
     df <- read_csv fs file_path ;;
     print "Dataset loaded successfully." ;;
     df_sample <- sample module_state df sample_size (Some 42) ;;
     print "Using a random sample of 100000 records for analysis." ;;
     ret df_sample)
    (print "Error: 'US_Accidents_March23.csv' not found." ;;
     print "Please make sure the 'US_Accidents_March23.csv' file is in the same folder as this script." ;;
     exit None).

(** Lines 45-135. *)
Definition report (df_sample : list (Row string)) : Script unit :=
  print (nl "Starting data cleaning and preprocessing...") ;;
  df_clean <- ret (clean df_sample) ;;
  print "Data cleaning and preprocessing complete." ;;
  show "Accidents by Hour of the Day" (numbered (by_hour df_clean)) ;;
  show "Accidents by Day of the Week" (named (by_day_of_week df_clean)) ;;
  top_weather <- ret (by_weather L df_clean) ;;
  show "Top 10 Weather Conditions During Accidents" (named top_weather) ;;
  show "Accidents: Day vs. Night" (named (by_day_night df_clean)) ;;
  road_features_df <- ret (by_road_feature L df_clean) ;;
  show "Accidents by Road Feature" (named road_features_df) ;;
  print (nl "Generating accident hotspot map... (This may take a moment)") ;;
  save map_filename (heat_data df_clean) ;;
  print "Map saved successfully as 'accident_hotspots.html'. Open this file in a web browser to view the heatmap.".

Definition main (fs : string -> option (list (Row string)))
    (module_state : RandomState L) : Script unit :=
  print "Libraries imported successfully." ;;
  df_sample <- load_and_sample fs module_state ;;
  report df_sample.

End Pipeline.

(** ** Vocabulary of the statements *)

(** [holds eq_dec col k r]: the cell of row [r] in column [col] is the
    value [k]. *)
Definition holds {R K : Type} (eq_dec : forall x y : K, {x = y} + {x <> y})
    (col : R -> option K) (k : K) (r : R) : bool :=
  match col r with
  | Some v => if eq_dec v k then true else false
  | None => false
  end.

(** The number of rows whose cell in column [col] is [k]. *)
Definition rows_with {R K : Type} (eq_dec : forall x y : K, {x = y} + {x <> y})
    (col : R -> option K) (k : K) (df : list R) : nat :=
  List.length (filter (holds eq_dec col k) df).

(** What lines 59-63 make of one row that passed line 56, [col] being the
    [Start_Time] column at that point. *)
Definition cleaned (L : Libraries) (col : list (option string))
    (r : Row string) : CleanRow :=
  derive (set_Start_Time r match Start_Time r with
                           | Some s => to_datetime_cell L col s
                           | None => None
                           end).

(** The entries of [s] whose count is [n], in the order they have in [s]. *)
Definition with_count {K : Type} (n : nat) (s : Counts K) : Counts K :=
  filter (fun p => (snd p =? n)%nat) s.

(** A row with its [Severity] cell blanked: two tables that differ only
    in their [Severity] values are equal once blanked. *)
Definition without_Severity {T : Type} (r : Row T) : Row T :=
  set_Severity r None.

Definition clean_without_Severity (c : CleanRow) : CleanRow :=
  mkClean (without_Severity (data c)) (Hour c) (DayOfWeek c).

(** ** Worked inputs *)

Definition accident (t w d : string) (junction : bool) : Row string :=
  mkRow (Some t) (Some (3974 # 100)) (Some (-8499 # 100)) (Some 2)
        (Some w) (Some d) (Some junction) (Some false) (Some true).

Definition monday_5am : Row string :=
  accident "2023-03-06 05:12:00" "Rain" "Day" true.

Definition tuesday_5am : Row string :=
  accident "2023-03-07 05:59:59" "Fair" "Day" false.

Definition undated : Row string :=
  accident "not a date" "Fair" "Night" true.

Definition no_weather : Row string :=
  mkRow (Some "2023-03-08 10:00:00") (Some (3974 # 100)) (Some (-8499 # 100))
        (Some 2) None (Some "Day") (Some false) (Some false) (Some false).

Definition no_files (_ : string) : option (list (Row string)) := None.

Definition small_file (path : string) : option (list (Row string)) :=
  if string_dec path file_path then Some [monday_5am; tuesday_5am] else None.

(** The sum of the counts of a chart or of a Series. *)
Definition total {K : Type} (s : Counts K) : nat := list_sum (map snd s).

(** What a run printed, the titles of the charts it showed and the files
    it saved, each in the order it happened. *)
Definition printed (out : list event) : list string :=
  flat_map (fun e => match e with Printed line => [line] | _ => [] end) out.

Definition shown (out : list event) : list string :=
  flat_map (fun e => match e with Shown title _ => [title] | _ => [] end) out.

Definition saved (out : list event) : list string :=
  flat_map (fun e => match e with Saved filename _ => [filename] | _ => [] end)
           out.

(** A file system whose input file holds [sample_size] rows. *)
Definition full_file (path : string) : option (list (Row string)) :=
  if string_dec path file_path
  then Some (repeat monday_5am (Z.to_nat sample_size))
  else None.

(** * Properties *)

(** ** Lists: first-seen order, stable sorting, bars *)

Section ListFacts.

Context {A : Type}.
Variable eq_dec : forall x y : A, {x = y} + {x <> y}.

Lemma dropna_In (col : list (option A)) (v : A) :
  In v (dropna col) <-> In (Some v) col.
Proof.
  induction col as [|[w|] col IH]; simpl.
  - tauto.
  - rewrite IH. split; intros [H|H]; auto; left; congruence.
  - rewrite IH. split; [auto | intros [H|H]; [discriminate | exact H]].
Qed.

Lemma unique_In (l : list A) (x : A) : In x (unique eq_dec l) <-> In x l.
Proof.
  induction l as [|a l IH]; simpl; [tauto|].
  destruct (eq_dec a x) as [->|Hne].
  - tauto.
  - split; intros [H|H]; try contradiction; right.
    + apply in_remove in H. tauto.
    + apply in_in_remove; [congruence | tauto].
Qed.

Lemma NoDup_remove_elt (l : list A) (x : A) :
  NoDup l -> NoDup (remove eq_dec x l).
Proof.
  induction 1 as [|a l Hin Hnd IH]; simpl; [constructor|].
  destruct (eq_dec x a); [exact IH|].
  constructor; [|exact IH].
  intros H. apply in_remove in H. tauto.
Qed.

Lemma unique_NoDup (l : list A) : NoDup (unique eq_dec l).
Proof.
  induction l as [|a l IH]; simpl; constructor.
  - apply remove_In.
  - apply NoDup_remove_elt, IH.
Qed.

Variable before : A -> A -> bool.

Lemma insert_perm (x : A) (l : list A) : Permutation (insert before x l) (x :: l).
Proof.
  induction l as [|a l IH]; simpl; [reflexivity|].
  destruct (before x a); [reflexivity|].
  etransitivity; [apply perm_skip, IH | apply perm_swap].
Qed.

Lemma sort_perm (l : list A) : Permutation (sort before l) l.
Proof.
  induction l as [|a l IH]; simpl; [reflexivity|].
  etransitivity; [apply insert_perm | apply perm_skip, IH].
Qed.

Lemma sort_In (l : list A) (x : A) : In x (sort before l) <-> In x l.
Proof.
  split; apply Permutation_in; [|symmetry]; apply sort_perm.
Qed.

Lemma insert_front (x : A) (l : list A) :
  Forall (fun y => before x y = true) l -> insert before x l = x :: l.
Proof.
  destruct 1 as [|y l Hy _]; simpl; [reflexivity|].
  rewrite Hy. reflexivity.
Qed.

Lemma sort_sorted_id (l : list A) :
  StronglySorted (fun x y => before x y = true) l -> sort before l = l.
Proof.
  induction 1 as [|a l _ IH Hall]; simpl; [reflexivity|].
  rewrite IH. apply insert_front, Hall.
Qed.

Hypothesis before_total : forall x y, before x y = false -> before y x = true.
Hypothesis before_trans :
  forall x y z, before x y = true -> before y z = true -> before x z = true.

Lemma insert_sorted (x : A) (l : list A) :
  StronglySorted (fun x y => before x y = true) l ->
  StronglySorted (fun x y => before x y = true) (insert before x l).
Proof.
  induction 1 as [|a l Hs IH Hall]; simpl.
  - repeat constructor.
  - destruct (before x a) eqn:Hxa.
    + constructor; [constructor; assumption|].
      constructor; [exact Hxa|].
      eapply Forall_impl; [|exact Hall].
      intros y Hay. eapply before_trans; eassumption.
    + constructor; [exact IH|].
      eapply Permutation_Forall; [symmetry; apply insert_perm|].
      constructor; [apply before_total, Hxa | exact Hall].
Qed.

Lemma sort_sorted (l : list A) :
  StronglySorted (fun x y => before x y = true) (sort before l).
Proof.
  induction l as [|a l IH]; simpl; [constructor | apply insert_sorted, IH].
Qed.

End ListFacts.

Section Stability.

Context {A : Type}.
Variable before : A -> A -> bool.
Variable same : A -> bool.
Hypothesis same_before :
  forall x y, same x = true -> same y = true -> before x y = true.

Lemma insert_filter (x : A) (l : list A) :
  filter same (insert before x l) = filter same (x :: l).
Proof.
  induction l as [|a l IH]; simpl; [reflexivity|].
  destruct (before x a) eqn:Hxa; [reflexivity|].
  simpl in *. rewrite IH.
  destruct (same x) eqn:Hx, (same a) eqn:Ha; try reflexivity.
  assert (before x a = true) by (apply same_before; assumption).
  congruence.
Qed.

Lemma sort_stable (l : list A) : filter same (sort before l) = filter same l.
Proof.
  induction l as [|a l IH]; simpl; [reflexivity|].
  rewrite insert_filter. simpl. rewrite IH. reflexivity.
Qed.

End Stability.

(** ** Counting *)

Section Counting.

Context {R K : Type}.
Variable eq_dec : forall x y : K, {x = y} + {x <> y}.

Lemma count_occ_rows_with (col : R -> option K) (k : K) (df : list R) :
  count_occ eq_dec (dropna (map col df)) k = rows_with eq_dec col k df.
Proof.
  unfold rows_with, holds.
  induction df as [|r df IH]; simpl; [reflexivity|].
  destruct (col r) as [v|]; simpl; [|exact IH].
  destruct (eq_dec v k); simpl; rewrite IH; reflexivity.
Qed.

Lemma rows_with_pos (col : R -> option K) (k : K) (df : list R) :
  (0 < rows_with eq_dec col k df)%nat <->
  exists r, In r df /\ col r = Some k.
Proof.
  rewrite <- count_occ_rows_with.
  change (count_occ eq_dec (dropna (map col df)) k > 0 <->
          (exists r, In r df /\ col r = Some k))%nat.
  rewrite <- count_occ_In, dropna_In, in_map_iff.
  split; intros [r H]; exists r; tauto.
Qed.

Lemma bar_perm (k : K) (b1 b2 : Counts K) :
  Permutation b1 b2 -> bar eq_dec k b1 = bar eq_dec k b2.
Proof.
  unfold bar.
  induction 1 as [|p b1 b2 _ IH|p q b|b1 b2 b3 _ IH1 _ IH2]; simpl.
  - reflexivity.
  - destruct (eq_dec (fst p) k); simpl; rewrite IH; reflexivity.
  - destruct (eq_dec (fst p) k), (eq_dec (fst q) k); simpl; lia.
  - congruence.
Qed.

Lemma bar_absent (f : K -> nat) (k : K) (keys : list K) :
  ~ In k keys -> bar eq_dec k (map (fun x => (x, f x)) keys) = 0%nat.
Proof.
  unfold bar.
  induction keys as [|a keys IH]; simpl; intros Hk; [reflexivity|].
  destruct (eq_dec a k) as [->|_]; [tauto|].
  apply IH. tauto.
Qed.

Lemma bar_present (f : K -> nat) (k : K) (keys : list K) :
  NoDup keys -> In k keys ->
  bar eq_dec k (map (fun x => (x, f x)) keys) = f k.
Proof.
  induction 1 as [|a keys Ha _ IH]; simpl; intros Hk; [contradiction|].
  unfold bar in *. simpl.
  destruct (eq_dec a k) as [->|Hne]; simpl.
  - fold (bar eq_dec k (map (fun x => (x, f x)) keys)).
    rewrite bar_absent by assumption. lia.
  - apply IH. destruct Hk; [contradiction | assumption].
Qed.

(** Counting per distinct value, in whatever order the values are
    listed: the bar at [k] is the number of occurrences of [k]. *)
Lemma bar_counts (values keys : list K) (k : K) :
  Permutation keys (unique eq_dec values) ->
  bar eq_dec k (map (fun x => (x, count_occ eq_dec values x)) keys)
  = count_occ eq_dec values k.
Proof.
  intros Hp.
  assert (Hnd : NoDup keys).
  { eapply Permutation_NoDup; [symmetry; exact Hp | apply unique_NoDup]. }
  destruct (in_dec eq_dec k keys) as [Hin|Hout].
  - apply bar_present; assumption.
  - rewrite bar_absent by assumption.
    symmetry. apply count_occ_not_In.
    intros Hv. apply Hout.
    eapply Permutation_in; [symmetry; exact Hp | apply unique_In, Hv].
Qed.

Lemma countplot_map (numeric : option (K -> K -> bool))
    (order : option (list K)) (col : list (option K)) :
  countplot eq_dec numeric order col
  = map (fun k => (k, count_occ eq_dec (dropna col) k))
        (categorical_order eq_dec numeric order col).
Proof.
  destruct col; reflexivity.
Qed.

Lemma categorical_order_inferred (numeric : option (K -> K -> bool))
    (col : list (option K)) :
  categorical_order eq_dec numeric None col
  = match numeric with
    | Some leb => sort leb (unique eq_dec (dropna col))
    | None => unique eq_dec (dropna col)
    end.
Proof.
  destruct col, numeric; reflexivity.
Qed.

Lemma categorical_order_given (numeric : option (K -> K -> bool))
    (levels : list K) (col : list (option K)) :
  col <> [] -> categorical_order eq_dec numeric (Some levels) col = levels.
Proof.
  destruct col; [contradiction | reflexivity].
Qed.

Lemma categorical_order_perm (numeric : option (K -> K -> bool))
    (col : list (option K)) :
  Permutation (categorical_order eq_dec numeric None col)
              (unique eq_dec (dropna col)).
Proof.
  rewrite categorical_order_inferred.
  destruct numeric; [apply sort_perm | reflexivity].
Qed.

Lemma bar_countplot (numeric : option (K -> K -> bool))
    (col : R -> option K) (df : list R) (k : K) :
  bar eq_dec k (countplot eq_dec numeric None (map col df))
  = rows_with eq_dec col k df.
Proof.
  rewrite countplot_map.
  rewrite bar_counts by apply categorical_order_perm.
  apply count_occ_rows_with.
Qed.

Lemma In_countplot (numeric : option (K -> K -> bool))
    (col : R -> option K) (df : list R) (k : K) (n : nat) :
  In (k, n) (countplot eq_dec numeric None (map col df)) <->
  n = rows_with eq_dec col k df /\ (1 <= n)%nat.
Proof.
  rewrite countplot_map, in_map_iff. split.
  - intros [x [Hx Hin]]. inversion Hx; subst x n; clear Hx.
    rewrite count_occ_rows_with. split; [reflexivity|].
    rewrite <- count_occ_rows_with.
    apply count_occ_In.
    apply (unique_In eq_dec).
    eapply Permutation_in; [apply categorical_order_perm | exact Hin].
  - intros [-> Hpos]. exists k. rewrite count_occ_rows_with.
    split; [reflexivity|].
    eapply Permutation_in; [symmetry; apply categorical_order_perm|].
    apply unique_In. rewrite <- count_occ_rows_with in Hpos.
    apply (count_occ_In eq_dec). exact Hpos.
Qed.

End Counting.

(** ** Sorted lists *)

Lemma firstn_In {A : Type} (n : nat) (l : list A) (x : A) :
  In x (firstn n l) -> In x l.
Proof.
  intros H. rewrite <- (firstn_skipn n l). apply in_or_app. left. exact H.
Qed.

Section SortedFacts.

Context {A : Type}.
Variables R R' : A -> A -> Prop.

Lemma StronglySorted_weaken (l : list A) :
  (forall x y, R x y -> R' x y) -> StronglySorted R l -> StronglySorted R' l.
Proof.
  intros Himp. induction 1 as [|a l _ IH Hall]; constructor; [exact IH|].
  eapply Forall_impl; [|exact Hall]. intros y. apply Himp.
Qed.

Lemma StronglySorted_firstn (n : nat) (l : list A) :
  StronglySorted R l -> StronglySorted R (firstn n l).
Proof.
  intros Hs. revert n.
  induction Hs as [|a l _ IH Hall]; intros [|n]; simpl; try constructor.
  - apply IH.
  - rewrite Forall_forall in *. intros y Hy. apply Hall.
    eapply firstn_In; exact Hy.
Qed.

Lemma StronglySorted_app_inv (l1 l2 : list A) (x y : A) :
  StronglySorted R (l1 ++ l2) -> In x l1 -> In y l2 -> R x y.
Proof.
  induction l1 as [|a l1 IH]; simpl; intros Hs Hx Hy; [contradiction|].
  inversion Hs as [|? ? Hs' Hall]; subst.
  destruct Hx as [->|Hx]; [|apply IH; assumption].
  rewrite Forall_forall in Hall. apply Hall, in_or_app. right. exact Hy.
Qed.

End SortedFacts.

Lemma stable_sort_desc_descending {K : Type} (s : Counts K) :
  descending (stable_sort_desc s).
Proof.
  unfold descending, stable_sort_desc.
  apply StronglySorted_weaken with (R := fun p q => by_count_desc p q = true).
  - intros p q. unfold by_count_desc. apply Nat.leb_le.
  - apply sort_sorted; unfold by_count_desc.
    + intros p q H. apply Nat.leb_gt in H. apply Nat.leb_le. lia.
    + intros p q r H1 H2. apply Nat.leb_le in H1, H2. apply Nat.leb_le. lia.
Qed.

Lemma stable_sort_desc_sorted {K : Type} (s : Counts K) :
  descending s -> stable_sort_desc s = s.
Proof.
  intros Hs. apply sort_sorted_id.
  eapply StronglySorted_weaken; [|exact Hs].
  intros p q. unfold by_count_desc. apply Nat.leb_le.
Qed.

Lemma stable_sort_desc_ties {K : Type} (n : nat) (s : Counts K) :
  with_count n (stable_sort_desc s) = with_count n s.
Proof.
  apply sort_stable. intros p q Hp Hq.
  apply Nat.eqb_eq in Hp, Hq. unfold by_count_desc. apply Nat.leb_le. lia.
Qed.

Lemma demo_sorts : sorts demo.
Proof.
  intros s. split.
  - apply sort_perm.
  - apply stable_sort_desc_descending.
Qed.

Lemma ascending_distinct (l : list Z) :
  StronglySorted (fun x y => (x <=? y) = true) l -> NoDup l ->
  StronglySorted Z.lt l.
Proof.
  induction 1 as [|a l _ IH Hall]; intros Hnd; constructor;
    inversion Hnd as [|? ? Hout Hnd']; subst.
  - apply IH, Hnd'.
  - rewrite Forall_forall in *. intros y Hy.
    specialize (Hall y Hy). apply Z.leb_le in Hall.
    assert (a <> y) by (intros ->; contradiction). lia.
Qed.

Lemma countplot_levels {K : Type} (eq_dec : forall x y : K, {x = y} + {x <> y})
    (numeric : option (K -> K -> bool)) (order : option (list K))
    (col : list (option K)) :
  map fst (countplot eq_dec numeric order col)
  = categorical_order eq_dec numeric order col.
Proof.
  destruct col; [reflexivity|].
  unfold countplot. rewrite map_map. simpl. apply map_id.
Qed.

Lemma fold_left_flags {R : Type} (col : R -> option bool) (df : list R)
    (start : nat) :
  fold_left (fun acc c =>
               match c with
               | Some true => acc + 1
               | Some false => acc + 0
               | None => acc
               end%nat) (map col df) start
  = (start + rows_with Bool.bool_dec col true df)%nat.
Proof.
  unfold rows_with, holds. revert start.
  induction df as [|r df IH]; intros start; simpl; [lia|].
  rewrite IH. destruct (col r) as [[|]|]; simpl; lia.
Qed.

Lemma column_sum_rows_with {R : Type} (col : R -> option bool) (df : list R) :
  column_sum (map col df) = rows_with Bool.bool_dec col true df.
Proof.
  unfold column_sum. rewrite fold_left_flags. reflexivity.
Qed.

(** ** The aggregations *)

Lemma sorted_In (L : Libraries) (s : Counts string) (p : string * nat) :
  sorts L -> In p (sort_values_desc L s) <-> In p s.
Proof.
  intros HL. destruct (HL s) as [Hp _].
  split; apply Permutation_in; [|symmetry]; exact Hp.
Qed.

Lemma In_value_counts {R : Type} (L : Libraries) (col : R -> option string)
    (df : list R) (k : string) (n : nat) :
  sorts L ->
  In (k, n) (value_counts L (map col df)) <->
  n = rows_with string_dec col k df /\ (1 <= n)%nat.
Proof.
  intros HL. unfold value_counts.
  rewrite (sorted_In _ _ HL), in_map_iff. split.
  - intros [x [Hx Hin]]. inversion Hx; subst x n; clear Hx.
    rewrite count_occ_rows_with. split; [reflexivity|].
    rewrite <- count_occ_rows_with.
    apply count_occ_In, (unique_In string_dec), Hin.
  - intros [-> Hpos]. exists k. rewrite count_occ_rows_with.
    split; [reflexivity|].
    apply unique_In. rewrite <- count_occ_rows_with in Hpos.
    apply (count_occ_In string_dec). exact Hpos.
Qed.

Lemma value_counts_keys (L : Libraries) (col : list (option string)) :
  sorts L -> NoDup (map fst (value_counts L col)).
Proof.
  intros HL. unfold value_counts.
  eapply Permutation_NoDup.
  - symmetry. apply Permutation_map, HL.
  - rewrite map_map. simpl. rewrite map_id. apply unique_NoDup.
Qed.

Lemma by_weather_firstn (L : Libraries) (df_clean : list CleanRow) :
  sorts L -> by_weather L df_clean = firstn 10 (weather_counts L df_clean).
Proof.
  intros HL. unfold by_weather, nlargest.
  rewrite stable_sort_desc_sorted; [reflexivity|].
  apply HL.
Qed.

(** C5, as the code has it.  The hour chart has one bucket for each hour
    that occurs among the cleaned records and none for the others: the
    buckets come in ascending order without repetition, a bucket [(h, n)] is
    there exactly when [n >= 1] records have [Hour = h], and the height
    read at any hour [h], 0 where no bucket is drawn, is the number of
    records at that hour.  For two records, both at hour 5, the chart is
    the single bucket [(5, 2)]. *)
Theorem by_hour_buckets (df_clean : list CleanRow) :
  StronglySorted Z.lt (map fst (by_hour df_clean)) /\
  (forall h n, In (h, n) (by_hour df_clean) <->
               n = rows_with Z.eq_dec Hour h df_clean /\ (1 <= n)%nat) /\
  (forall h, bar Z.eq_dec h (by_hour df_clean)
             = rows_with Z.eq_dec Hour h df_clean) /\
  (List.length df_clean = 2%nat ->
   (forall c, In c df_clean -> Hour c = Some 5) ->
   by_hour df_clean = [(5, 2%nat)]).
Proof.
  unfold by_hour. repeat split.
  - rewrite countplot_levels, categorical_order_inferred.
    apply ascending_distinct.
    + apply sort_sorted.
      * intros x y H. apply Z.leb_gt in H. apply Z.leb_le. lia.
      * intros x y z H1 H2. apply Z.leb_le in H1, H2. apply Z.leb_le. lia.
    + eapply Permutation_NoDup; [symmetry; apply sort_perm|].
      apply unique_NoDup.
  - apply In_countplot in H. tauto.
  - apply In_countplot in H. tauto.
  - intros H. apply In_countplot. exact H.
  - intros h. apply bar_countplot.
  - intros Hlen Hall.
    destruct df_clean as [|c1 [|c2 [|c3 rest]]]; try discriminate Hlen.
    simpl. rewrite (Hall c1), (Hall c2) by (simpl; tauto).
    reflexivity.
Qed.

Lemma by_hour_buckets_witness :
  by_hour (clean demo [monday_5am; tuesday_5am]) = [(5, 2%nat)].
Proof.
  apply (by_hour_buckets (clean demo [monday_5am; tuesday_5am])).
  - reflexivity.
  - intros c Hc. vm_compute in Hc.
    destruct Hc as [<-|[<-|[]]]; reflexivity.
Defined.

(** C5 as stated fails: for two records at hour 5 the chart has the one
    bucket 5, so the hours 0-4 and 6-23 are not present with a 0. *)
Lemma by_hour_missing_buckets :
  ~ (forall h, 0 <= h <= 23 ->
     exists n, In (h, n) (by_hour (clean demo [monday_5am; tuesday_5am]))).
Proof.
  intros H. destruct (H 0) as [n Hin]; [lia|].
  vm_compute in Hin. destruct Hin as [Heq|[]]. discriminate Heq.
Qed.

(** C7, as the code has it.  For every cleaned-record collection that is
    not empty the weekday chart has exactly the seven positions Monday to
    Sunday, in that order, whatever the records and whatever order a
    group-by would give; each bears the number of records of that day.
    For the empty collection the chart has no position at all. *)
Theorem by_day_of_week_keys (df_clean : list CleanRow) :
  map fst (by_day_of_week df_clean)
  = match df_clean with
    | [] => []
    | _ :: _ => ["Monday"; "Tuesday"; "Wednesday"; "Thursday"; "Friday";
                 "Saturday"; "Sunday"]
    end /\
  (forall d n, In (d, n) (by_day_of_week df_clean) ->
               n = rows_with string_dec DayOfWeek d df_clean).
Proof.
  unfold by_day_of_week. split.
  - rewrite countplot_levels. destruct df_clean; reflexivity.
  - intros d n Hin. rewrite countplot_map in Hin.
    apply in_map_iff in Hin. destruct Hin as [x [Hx _]].
    inversion Hx; subst. apply count_occ_rows_with.
Qed.

(** C7 as stated fails: a sample whose only row has no weather condition
    is cleaned to the empty collection, and the weekday chart of the empty
    collection has no keys. *)
Lemma by_day_of_week_empty :
  clean demo [no_weather] = [] /\
  by_day_of_week (clean demo [no_weather]) = [] /\
  map fst (by_day_of_week (clean demo [no_weather]))
  <> ["Monday"; "Tuesday"; "Wednesday"; "Thursday"; "Friday"; "Saturday";
      "Sunday"].
Proof.
  repeat split. intros H. discriminate H.
Qed.

(** C8.  The road-feature Series holds, for each of Junction, Crossing and
    Traffic_Signal, the number of records where the feature is true, and
    is sorted by that sum, largest first. *)
Theorem by_road_feature_sums (L : Libraries) (df_clean : list CleanRow) :
  sorts L ->
  Permutation
    (by_road_feature L df_clean)
    [("Junction",
      rows_with Bool.bool_dec (fun c => Junction (data c)) true df_clean);
     ("Crossing",
      rows_with Bool.bool_dec (fun c => Crossing (data c)) true df_clean);
     ("Traffic_Signal",
      rows_with Bool.bool_dec (fun c => Traffic_Signal (data c)) true df_clean)]
  /\ descending (by_road_feature L df_clean).
Proof.
  intros HL. unfold by_road_feature.
  destruct (HL (map (fun f => (fst f,
                               column_sum (map (fun c => snd f (data c))
                                               df_clean)))
                    road_features)) as [Hperm Hdesc].
  split; [|exact Hdesc].
  etransitivity; [exact Hperm|].
  simpl. rewrite !column_sum_rows_with. reflexivity.
Qed.

Lemma by_road_feature_sums_witness :
  descending (by_road_feature demo (clean demo [monday_5am; undated])).
Proof.
  apply (@by_road_feature_sums demo (clean demo [monday_5am; undated])).
  exact demo_sorts.
Defined.

(** C6, as the code has it.  The weather Series has at most 10 entries;
    its counts never increase from one entry to the next; its conditions
    are distinct and each comes with the number of records it occurs in,
    at least 1; a condition that occurs but is left out is left out of a
    full list of 10 and occurs no more often than any listed one; and the
    entries are the first 10 of the sorted value counts, so that entries of
    equal count stand in the order the sort of [value_counts] left them
    in. *)
Theorem by_weather_top10 (L : Libraries) (df_clean : list CleanRow) :
  sorts L ->
  let weather := fun c => Weather_Condition (data c) in
  (List.length (by_weather L df_clean) <= 10)%nat /\
  descending (by_weather L df_clean) /\
  NoDup (map fst (by_weather L df_clean)) /\
  (forall w n, In (w, n) (by_weather L df_clean) ->
     n = rows_with string_dec weather w df_clean /\ (1 <= n)%nat) /\
  (forall w, (1 <= rows_with string_dec weather w df_clean)%nat ->
     ~ In w (map fst (by_weather L df_clean)) ->
     List.length (by_weather L df_clean) = 10%nat /\
     forall p, In p (by_weather L df_clean) ->
       (rows_with string_dec weather w df_clean <= snd p)%nat) /\
  by_weather L df_clean = firstn 10 (weather_counts L df_clean).
Proof.
  intros HL weather.
  rewrite (by_weather_firstn df_clean HL).
  assert (Hdesc : descending (weather_counts L df_clean)) by apply HL.
  assert (Hcount : forall w n, In (w, n) (weather_counts L df_clean) <->
            n = rows_with string_dec weather w df_clean /\ (1 <= n)%nat).
  { intros w n. apply In_value_counts, HL. }
  repeat split.
  - apply firstn_le_length.
  - apply StronglySorted_firstn, Hdesc.
  - rewrite <- firstn_map.
    apply NoDup_app_remove_r
      with (l' := skipn 10 (map fst (weather_counts L df_clean))).
    rewrite firstn_skipn. apply value_counts_keys, HL.
  - apply firstn_In, Hcount in H. tauto.
  - apply firstn_In, Hcount in H. tauto.
  - assert (Hin : In (w, rows_with string_dec weather w df_clean)
                     (weather_counts L df_clean))
      by (apply Hcount; split; [reflexivity | assumption]).
    rewrite length_firstn.
    destruct (Nat.le_gt_cases (List.length (weather_counts L df_clean)) 10)
      as [Hle|Hgt]; [|lia].
    exfalso. apply H0. rewrite firstn_all2 by exact Hle.
    apply (in_map fst) in Hin. exact Hin.
  - intros p Hp.
    assert (Hin : In (w, rows_with string_dec weather w df_clean)
                     (weather_counts L df_clean))
      by (apply Hcount; split; [reflexivity | assumption]).
    rewrite <- (firstn_skipn 10 (weather_counts L df_clean)) in Hin, Hdesc.
    apply in_app_or in Hin. destruct Hin as [Hin|Hin].
    + exfalso. apply H0. apply (in_map fst) in Hin. exact Hin.
    + unfold descending in Hdesc.
      apply (@StronglySorted_app_inv _ _ _ _ _ _ Hdesc Hp Hin).
Qed.

Lemma by_weather_top10_witness :
  (List.length (by_weather demo (clean demo [monday_5am; tuesday_5am]))
   <= 10)%nat.
Proof.
  apply (@by_weather_top10 demo (clean demo [monday_5am; tuesday_5am])).
  exact demo_sorts.
Defined.

(** With the stable sort, entries of equal count stand in the order of
    first occurrence in the records. *)
Lemma weather_counts_first_seen (n : nat) (df_clean : list CleanRow) :
  with_count n (weather_counts demo df_clean)
  = with_count n
      (map (fun w => (w, rows_with string_dec
                           (fun c => Weather_Condition (data c)) w df_clean))
           (unique string_dec
              (dropna (map (fun c => Weather_Condition (data c)) df_clean)))).
Proof.
  unfold weather_counts, value_counts. simpl.
  rewrite stable_sort_desc_ties. f_equal.
  apply map_ext. intros w. rewrite count_occ_rows_with. reflexivity.
Qed.

(** C6 as stated fails: two conditions that occur equally often are both
    listed, and their counts do not go strictly down. *)
Lemma by_weather_tie :
  by_weather demo (clean demo [monday_5am; tuesday_5am])
  = [("Rain", 1%nat); ("Fair", 1%nat)] /\
  ~ strictly_descending
      (by_weather demo (clean demo [monday_5am; tuesday_5am])).
Proof.
  assert (E : by_weather demo (clean demo [monday_5am; tuesday_5am])
              = [("Rain", 1%nat); ("Fair", 1%nat)]) by reflexivity.
  split; [exact E|].
  rewrite E. unfold strictly_descending. intros H.
  inversion H as [|? ? _ Hall]; subst.
  inversion Hall as [|? ? Hlt _]; subst.
  simpl in Hlt. lia.
Qed.

(** ** Cleaning *)

Lemma combine_map_self {A B : Type} (h : A -> B) (l : list A) :
  combine l (map h l) = map (fun x => (x, h x)) l.
Proof.
  induction l as [|a l IH]; simpl; [reflexivity | rewrite IH; reflexivity].
Qed.

Lemma filter_map_comm {A B : Type} (f : A -> B) (p : B -> bool) (l : list A) :
  filter p (map f l) = map f (filter (fun x => p (f x)) l).
Proof.
  induction l as [|a l IH]; simpl; [reflexivity|].
  destruct (p (f a)); simpl; rewrite IH; reflexivity.
Qed.

Lemma dropna_filter {A B : Type} (f : A -> option B) (keep : A -> bool)
    (l : list A) :
  (forall x, In x l -> keep x = false -> f x = None) ->
  dropna (map f (filter keep l)) = dropna (map f l).
Proof.
  induction l as [|a l IH]; simpl; intros H; [reflexivity|].
  destruct (keep a) eqn:Ha; simpl.
  - destruct (f a); rewrite IH by auto; reflexivity.
  - rewrite (H a) by auto. apply IH. auto.
Qed.

Lemma countplot_dropna {K : Type} (eq_dec : forall x y : K, {x = y} + {x <> y})
    (numeric : option (K -> K -> bool)) (col col' : list (option K)) :
  dropna col = dropna col' ->
  countplot eq_dec numeric None col = countplot eq_dec numeric None col'.
Proof.
  intros H. rewrite !countplot_map, !categorical_order_inferred, H.
  reflexivity.
Qed.

Lemma countplot_dropna_given {K : Type}
    (eq_dec : forall x y : K, {x = y} + {x <> y})
    (numeric : option (K -> K -> bool)) (levels : list K)
    (col col' : list (option K)) :
  col <> [] -> col' <> [] -> dropna col = dropna col' ->
  countplot eq_dec numeric (Some levels) col
  = countplot eq_dec numeric (Some levels) col'.
Proof.
  intros Hc Hc' H.
  rewrite !countplot_map, !categorical_order_given, H by assumption.
  reflexivity.
Qed.

Lemma rows_with_filter_lt {R K : Type}
    (eq_dec : forall x y : K, {x = y} + {x <> y})
    (col : R -> option K) (k : K) (keep : R -> bool) (df : list R) (r : R) :
  In r df -> keep r = false -> col r = Some k ->
  (rows_with eq_dec col k (filter keep df) < rows_with eq_dec col k df)%nat.
Proof.
  unfold rows_with. intros Hin Hkeep Hcol.
  assert (Hle : forall l,
    (List.length (filter (holds eq_dec col k) (filter keep l))
     <= List.length (filter (holds eq_dec col k) l))%nat).
  { induction l as [|a l IH]; simpl; [lia|].
    destruct (keep a); simpl; destruct (holds eq_dec col k a); simpl; lia. }
  induction df as [|a df IH]; simpl; [contradiction|].
  destruct Hin as [->|Hin].
  - rewrite Hkeep. unfold holds at 2. rewrite Hcol.
    destruct (eq_dec k k) as [_|Hne]; [|contradiction].
    simpl. specialize (Hle df). lia.
  - specialize (IH Hin).
    destruct (keep a); simpl; destruct (holds eq_dec col k a); simpl; lia.
Qed.

Section CleanFacts.

Variable L : Libraries.

Lemma clean_rows (df : list (Row string)) :
  clean L df
  = map (cleaned L
           (map (@Start_Time string) (dropna_subset df)))
        (dropna_subset df).
Proof.
  unfold clean, parse_Start_Time, to_datetime.
  rewrite (map_map (@Start_Time string)), combine_map_self, !map_map.
  reflexivity.
Qed.

Lemma In_clean (df : list (Row string)) (c : CleanRow) :
  In c (clean L df) <->
  exists r, In r df /\ subset_notna r = true /\
    c = cleaned L
          (map (@Start_Time string) (dropna_subset df)) r.
Proof.
  rewrite clean_rows, in_map_iff. unfold dropna_subset at 2.
  split; intros [r H]; exists r; rewrite filter_In in *; intuition.
Qed.

Lemma clean_unparsed (df : list (Row string)) (c : CleanRow) :
  In c (clean L df) -> parsed c = false ->
  Hour c = None /\ DayOfWeek c = None.
Proof.
  intros Hin Hp. apply In_clean in Hin. destruct Hin as [r [_ [_ ->]]].
  unfold parsed, cleaned, derive in *. simpl in *.
  destruct (Start_Time r) as [s|]; [|auto].
  destruct (to_datetime_cell L _ s); [discriminate | auto].
Qed.

Lemma clean_without_Severity_comm (df : list (Row string)) :
  clean L (map (@without_Severity string) df)
  = map clean_without_Severity (clean L df).
Proof.
  rewrite !clean_rows. unfold dropna_subset.
  rewrite filter_map_comm, !map_map. reflexivity.
Qed.

End CleanFacts.

Lemma dt_hour_range (ts : Timestamp) : 0 <= dt_hour ts <= 23.
Proof.
  unfold dt_hour.
  pose proof (Z.mod_pos_bound (ts / NS_PER_HOUR) 24). lia.
Qed.

Lemma dt_day_name_canonical (ts : Timestamp) : In (dt_day_name ts) day_order.
Proof.
  unfold dt_day_name, dt_weekday.
  pose proof (Z.mod_pos_bound (ts / NS_PER_DAY + 3) 7) as Hb.
  remember ((ts / NS_PER_DAY + 3) mod 7) as k eqn:Hk. clear Hk.
  assert (Hcases : k = 0 \/ k = 1 \/ k = 2 \/ k = 3 \/ k = 4 \/ k = 5 \/ k = 6)
    by lia.
  unfold day_order.
  destruct Hcases as [->|[->|[->|[->|[->|[->| ->]]]]]]; simpl; tauto.
Qed.

Lemma day_order_NoDup : NoDup day_order.
Proof.
  replace day_order with (nodup string_dec day_order) by reflexivity.
  apply NoDup_nodup.
Qed.

Lemma bar_by_day_of_week (df_clean : list CleanRow) (d : string) :
  bar string_dec d (by_day_of_week df_clean)
  = if in_dec string_dec d day_order
    then rows_with string_dec DayOfWeek d df_clean
    else 0%nat.
Proof.
  unfold by_day_of_week. rewrite countplot_map.
  destruct df_clean as [|c l].
  - destruct (in_dec string_dec d day_order); reflexivity.
  - rewrite categorical_order_given by discriminate.
    destruct (in_dec string_dec d day_order) as [Hin|Hout].
    + rewrite bar_present by (apply day_order_NoDup || exact Hin).
      apply count_occ_rows_with.
    + apply bar_absent. exact Hout.
Qed.

Lemma bar_value_counts {R : Type} (L : Libraries) (col : R -> option string)
    (df : list R) (k : string) :
  sorts L ->
  bar string_dec k (value_counts L (map col df))
  = rows_with string_dec col k df.
Proof.
  intros HL. unfold value_counts.
  rewrite (bar_perm string_dec k (proj1 (HL _))).
  rewrite bar_counts by reflexivity.
  apply count_occ_rows_with.
Qed.

Lemma bar_by_road_feature (L : Libraries) (df_clean : list CleanRow)
    (name : string) (col : Row Timestamp -> option bool) :
  sorts L ->
  In (name, col) road_features ->
  bar string_dec name (by_road_feature L df_clean)
  = rows_with Bool.bool_dec (fun c => col (data c)) true df_clean.
Proof.
  intros HL Hin. unfold by_road_feature.
  rewrite (bar_perm string_dec name (proj1 (HL _))).
  rewrite <- !column_sum_rows_with.
  destruct Hin as [H|[H|[H|[]]]]; inversion H; subst; clear H;
    unfold bar; cbn; lia.
Qed.

Lemma heat_data_filter_le (keep : CleanRow -> bool) (l : list CleanRow) :
  (List.length (heat_data (filter keep l)) <= List.length (heat_data l))%nat.
Proof.
  unfold heat_data.
  induction l as [|a l IH]; simpl; [lia|].
  destruct (keep a); simpl; rewrite ?length_app; lia.
Qed.

Lemma heat_data_filter_lt (keep : CleanRow -> bool) (l : list CleanRow)
    (c : CleanRow) (lat lng : Q) :
  In c l -> keep c = false ->
  Start_Lat (data c) = Some lat -> Start_Lng (data c) = Some lng ->
  (List.length (heat_data (filter keep l)) < List.length (heat_data l))%nat.
Proof.
  intros Hin Hkeep Hlat Hlng.
  induction l as [|a l IH]; simpl; [contradiction|].
  destruct Hin as [->|Hin].
  - rewrite Hkeep. unfold heat_data at 2. simpl. rewrite Hlat, Hlng. simpl.
    fold (heat_data l). pose proof (heat_data_filter_le keep l). lia.
  - specialize (IH Hin). unfold heat_data in *.
    destruct (keep a); simpl; rewrite ?length_app; lia.
Qed.

(** C3, as the code has it.  A sampled row that passes the null filter of
    line 56 and whose timestamp string does not parse is given a null
    timestamp (nothing is raised: [clean] is a total function) and stays in
    the Cleaner output, with a null [Hour] and a null [DayOfWeek].  It is
    counted in no bucket of the hour chart and in no weekday count: the
    hour chart is what it would be without the rows of null timestamp, and
    so is every weekday count, and the weekday chart as a whole whenever
    some row has a parsed timestamp.  The row is counted in the weather
    counts, in the day/night chart and, for each road feature it has, in
    that feature's sum, and its point is in the heat-map list: each of
    these is strictly larger than over the rows of non-null timestamp
    alone. *)
Theorem unparseable_row_kept
    (L : Libraries)
    (df : list (Row string)) (r : Row string) (s : string) :
  sorts L ->
  In r df -> subset_notna r = true -> Start_Time r = Some s ->
  to_datetime_cell L (map (@Start_Time string) (dropna_subset df)) s = None ->
  let df_clean := clean L df in
  let dated := filter parsed df_clean in
  In (mkClean (set_Start_Time r None) None None) df_clean /\
  by_hour df_clean = by_hour dated /\
  (forall d, bar string_dec d (by_day_of_week df_clean)
             = bar string_dec d (by_day_of_week dated)) /\
  (dated <> [] -> by_day_of_week df_clean = by_day_of_week dated) /\
  (exists w d,
     Weather_Condition r = Some w /\ Sunrise_Sunset r = Some d /\
     (bar string_dec w (weather_counts L dated)
      < bar string_dec w (weather_counts L df_clean))%nat /\
     (bar string_dec d (by_day_night dated)
      < bar string_dec d (by_day_night df_clean))%nat) /\
  (forall name col, In (name, col) road_features ->
     col (set_Start_Time r None) = Some true ->
     (bar string_dec name (by_road_feature L dated)
      < bar string_dec name (by_road_feature L df_clean))%nat) /\
  (List.length (heat_data dated) < List.length (heat_data df_clean))%nat.
Proof.
  intros HL Hin Hnotna Htime Hparse df_clean dated.
  set (c := mkClean (set_Start_Time r None) None None).
  assert (Hc : In c df_clean).
  { apply In_clean. exists r. repeat split; try assumption.
    unfold cleaned. rewrite Htime, Hparse. reflexivity. }
  assert (Hnull : forall x, In x df_clean -> parsed x = false ->
                            Hour x = None /\ DayOfWeek x = None)
    by apply clean_unparsed.
  assert (Hdays : dropna (map DayOfWeek dated)
                  = dropna (map DayOfWeek df_clean)).
  { apply dropna_filter. intros x Hx Hp. apply (Hnull x Hx Hp). }
  unfold subset_notna in Hnotna. rewrite !andb_true_iff in Hnotna.
  destruct Hnotna as [[[[_ Hlat] Hlng] Hw] Hd].
  destruct (Start_Lat r) as [lat|] eqn:Elat; [|discriminate].
  destruct (Start_Lng r) as [lng|] eqn:Elng; [|discriminate].
  destruct (Weather_Condition r) as [w|] eqn:Ew; [|discriminate].
  destruct (Sunrise_Sunset r) as [d|] eqn:Ed; [|discriminate].
  split; [exact Hc|].
  split.
  { unfold by_hour. apply countplot_dropna. symmetry. apply dropna_filter.
    intros x Hx Hp. apply (Hnull x Hx Hp). }
  split.
  { intros day. rewrite !bar_by_day_of_week.
    destruct (in_dec string_dec day day_order); [|reflexivity].
    rewrite <- !count_occ_rows_with, Hdays. reflexivity. }
  split.
  { intros Hdated. unfold by_day_of_week. apply countplot_dropna_given.
    - intros E. apply map_eq_nil in E. rewrite E in Hc. contradiction.
    - intros E. apply map_eq_nil in E. contradiction.
    - symmetry. exact Hdays. }
  split.
  { exists w, d. repeat split.
    - unfold weather_counts. rewrite !bar_value_counts by exact HL.
      apply rows_with_filter_lt with (r := c); [exact Hc | reflexivity | exact Ew].
    - unfold by_day_night. rewrite !bar_countplot.
      apply rows_with_filter_lt with (r := c); [exact Hc | reflexivity | exact Ed]. }
  split.
  { intros name col Hf Htrue. rewrite !(bar_by_road_feature _ HL Hf).
    apply rows_with_filter_lt with (r := c); [exact Hc | reflexivity | exact Htrue]. }
  apply heat_data_filter_lt with (c := c) (lat := lat) (lng := lng);
    [exact Hc | reflexivity | exact Elat | exact Elng].
Qed.

Lemma unparseable_row_kept_witness :
  In (mkClean (set_Start_Time undated None) None None)
     (clean demo [monday_5am; undated]).
Proof.
  apply (@unparseable_row_kept demo [monday_5am; undated] undated "not a date").
  - exact demo_sorts.
  - right. left. reflexivity.
  - reflexivity.
  - reflexivity.
  - reflexivity.
Defined.

(** C3 as stated fails: "not a date" is a non-null timestamp string that
    does not parse, and the row that carries it is in the Cleaner output
    and is counted by the weather, day/night and road-feature aggregations
    and listed in the heat-map points. *)
Lemma unparseable_row_counted :
  Start_Time undated = Some "not a date" /\
  iso_datetime "not a date" = None /\
  clean demo [undated] = [mkClean (set_Start_Time undated None) None None] /\
  by_weather demo (clean demo [undated]) = [("Fair", 1%nat)] /\
  by_day_night (clean demo [undated]) = [("Night", 1%nat)] /\
  by_road_feature demo (clean demo [undated])
  = [("Junction", 1%nat); ("Traffic_Signal", 1%nat); ("Crossing", 0%nat)] /\
  heat_data (clean demo [undated]) = [(3974 # 100, -8499 # 100)%Q].
Proof. repeat split. Qed.

(** C4, as the code has it.  Every record of the Cleaner output comes from
    a sampled row with a non-null timestamp string and has a non-null
    latitude, longitude, weather condition and day/night indicator.  Its
    timestamp is what the parser made of that string: when it is not null,
    [Hour] is an integer from 0 to 23 and [DayOfWeek] is one of the seven
    names of [day_order]; when it is null, [Hour] and [DayOfWeek] are null
    too. *)
Theorem clean_invariant
    (L : Libraries)
    (df : list (Row string)) (c : CleanRow) :
  In c (clean L df) ->
  notna (Start_Lat (data c)) = true /\
  notna (Start_Lng (data c)) = true /\
  notna (Weather_Condition (data c)) = true /\
  notna (Sunrise_Sunset (data c)) = true /\
  (exists r s,
     In r df /\ Start_Time r = Some s /\
     data c = set_Start_Time r
                (to_datetime_cell L (map (@Start_Time string)
                                        (dropna_subset df)) s)) /\
  match Start_Time (data c) with
  | Some ts =>
      exists h d, Hour c = Some h /\ 0 <= h <= 23 /\
                  DayOfWeek c = Some d /\ In d day_order
  | None => Hour c = None /\ DayOfWeek c = None
  end.
Proof.
  intros Hin. apply In_clean in Hin.
  destruct Hin as [r [Hr [Hnotna ->]]].
  unfold subset_notna in Hnotna. rewrite !andb_true_iff in Hnotna.
  destruct Hnotna as [[[[Ht Hlat] Hlng] Hw] Hd].
  unfold cleaned, derive. simpl.
  destruct (Start_Time r) as [s|] eqn:Es; [|discriminate].
  repeat (split; [assumption|]).
  split; [exists r, s; auto|].
  destruct (to_datetime_cell L _ s) as [ts|]; simpl; [|auto].
  exists (dt_hour ts), (dt_day_name ts).
  repeat split; try apply dt_hour_range. apply dt_day_name_canonical.
Qed.

Lemma clean_invariant_witness :
  In (cleaned demo [] monday_5am) (clean demo [monday_5am; undated]) /\
  notna (Start_Lat (data (cleaned demo [] monday_5am))) = true.
Proof.
  assert (H : In (cleaned demo [] monday_5am) (clean demo [monday_5am; undated]))
    by (left; reflexivity).
  split; [exact H|].
  exact (proj1 (clean_invariant demo [monday_5am; undated] _ H)).
Defined.

(** C4 as stated fails: the record the Cleaner makes of a row with an
    unparseable timestamp has a null timestamp, a null [Hour] and a null
    [DayOfWeek]. *)
Lemma clean_keeps_null_timestamp :
  exists c, In c (clean demo [monday_5am; undated]) /\
            Start_Time (data c) = None /\ Hour c = None /\ DayOfWeek c = None.
Proof.
  exists (mkClean (set_Start_Time undated None) None None).
  split; [right; left; reflexivity | repeat split].
Qed.

(** ** Severity *)

Section SeverityBlind.

Variable L : Libraries.
Context {B : Type}.
Variable agg : list CleanRow -> B.
Hypothesis agg_blind : forall l, agg (map clean_without_Severity l) = agg l.

Lemma blind_after_clean (t1 t2 : list (Row string)) :
  map (@without_Severity string) t1 = map (@without_Severity string) t2 ->
  agg (clean L t1) = agg (clean L t2).
Proof.
  intros H.
  rewrite <- (agg_blind (clean L t1)).
  rewrite <- (agg_blind (clean L t2)).
  rewrite <- !clean_without_Severity_comm, H. reflexivity.
Qed.

End SeverityBlind.

Lemma aggregations_blind (L : Libraries) (l : list CleanRow) :
  (by_hour (map clean_without_Severity l),
   by_day_of_week (map clean_without_Severity l),
   by_weather L (map clean_without_Severity l),
   by_day_night (map clean_without_Severity l),
   by_road_feature L (map clean_without_Severity l),
   heat_data (map clean_without_Severity l))
  = (by_hour l, by_day_of_week l, by_weather L l, by_day_night l,
     by_road_feature L l, heat_data l).
Proof.
  unfold by_hour, by_day_of_week, by_weather, weather_counts, by_day_night,
    by_road_feature, heat_data.
  simpl. rewrite !map_map. simpl.
  rewrite flat_map_concat_map, map_map, <- flat_map_concat_map.
  reflexivity.
Qed.

(** C10.  Two sampled tables that differ only in their [Severity] values
    give the same five aggregation results and the same heat-map point
    list, and so the same run of the rest of the script (lines 45-135). *)
Theorem severity_ignored
    (L : Libraries)
    (t1 t2 : list (Row string)) :
  map (@without_Severity string) t1 = map (@without_Severity string) t2 ->
  let c1 := clean L t1 in
  let c2 := clean L t2 in
  by_hour c1 = by_hour c2 /\
  by_day_of_week c1 = by_day_of_week c2 /\
  by_weather L c1 = by_weather L c2 /\
  by_day_night c1 = by_day_night c2 /\
  by_road_feature L c1 = by_road_feature L c2 /\
  heat_data c1 = heat_data c2 /\
  report L t1 = report L t2.
Proof.
  intros H c1 c2.
  pose proof (blind_after_clean L _ (aggregations_blind L) _ _ H) as E.
  fold c1 c2 in E.
  do 5 (apply pair_equal_spec in E; destruct E as [E ?]).
  repeat (split; [assumption|]).
  subst c1 c2.
  cbv beta iota zeta delta [report ret bind print show save app].
  congruence.
Qed.

Lemma severity_ignored_witness :
  by_weather demo (clean demo [set_Severity monday_5am (Some 4); undated])
  = by_weather demo (clean demo [monday_5am; undated]).
Proof.
  apply (@severity_ignored demo
           [set_Severity monday_5am (Some 4); undated] [monday_5am; undated]).
  reflexivity.
Defined.

(** ** Sampling *)

Lemma rotation_perm (state : Z) (n : nat) :
  Permutation (rotation state n) (seq 0 n).
Proof.
  unfold rotation.
  etransitivity; [apply Permutation_app_comm|].
  rewrite firstn_skipn. reflexivity.
Qed.

Lemma nth_error_seq {A : Type} (df : list A) :
  map (nth_error df) (seq 0 (List.length df)) = map Some df.
Proof.
  induction df as [|a df IH]; simpl; [reflexivity|].
  rewrite <- seq_shift, map_map. simpl. f_equal. exact IH.
Qed.

Lemma take_rows {A : Type} (df : list A) (indices : list nat) :
  Forall (fun i => (i < List.length df)%nat) indices ->
  exists rows, take df indices = ([], inr rows) /\
               map Some rows = map (nth_error df) indices.
Proof.
  induction 1 as [|i indices Hi _ [rows [Htake Hrows]]]; simpl.
  - exists []. split; reflexivity.
  - destruct (nth_error df i) as [r|] eqn:Er.
    + exists (r :: rows). rewrite Htake. simpl. rewrite Hrows.
      split; reflexivity.
    + apply nth_error_None in Er. lia.
Qed.

Lemma map_Some_inj {A : Type} (l l' : list A) :
  map Some l = map Some l' -> l = l'.
Proof.
  revert l'. induction l as [|a l IH]; intros [|b l'] H; simpl in H;
    try discriminate; [reflexivity|].
  injection H as -> H. rewrite (IH _ H). reflexivity.
Qed.

Section SamplerFacts.

Variable L : Libraries.
Hypothesis L_shuffles : shuffles L.

Lemma sample_rows (module_state : RandomState L) (df : list (Row string))
    (n : Z) (random_state : option Z) :
  0 <= n <= Z.of_nat (List.length df) ->
  exists indices rows,
    sample L module_state df n random_state = ([], inr rows) /\
    List.length rows = Z.to_nat n /\
    NoDup indices /\
    map Some rows = map (nth_error df) indices /\
    (n = Z.of_nat (List.length df) -> Permutation rows df).
Proof.
  intros Hn. unfold sample, choice.
  set (rs := match random_state with
             | Some seed => RandomState_of_seed L seed
             | None => module_state
             end).
  destruct (Z.ltb_spec n 0) as [Hneg|_]; [lia|].
  destruct (Z.ltb_spec (Z.of_nat (List.length df)) n) as [Hbig|_]; [lia|].
  pose proof (L_shuffles rs (List.length df)) as Hp.
  set (indices := firstn (Z.to_nat n) (permutation L rs (List.length df))).
  assert (Hvalid : Forall (fun i => (i < List.length df)%nat) indices).
  { apply Forall_forall. intros i Hi. apply firstn_In in Hi.
    apply (Permutation_in _ Hp), in_seq in Hi. lia. }
  destruct (take_rows df Hvalid) as [rows [Htake Hrows]].
  exists indices, rows. unfold ret, bind. fold indices. rewrite Htake.
  assert (Hlen : List.length (permutation L rs (List.length df))
                 = List.length df).
  { rewrite (Permutation_length Hp). apply length_seq. }
  repeat split.
  - rewrite <- (length_map Some rows), Hrows, length_map.
    unfold indices. rewrite length_firstn. lia.
  - apply NoDup_app_remove_r
      with (l' := skipn (Z.to_nat n) (permutation L rs (List.length df))).
    unfold indices. rewrite firstn_skipn.
    apply (Permutation_NoDup (Permutation_sym Hp)), seq_NoDup.
  - exact Hrows.
  - intros ->.
    assert (Hall : indices = permutation L rs (List.length df)).
    { unfold indices. apply firstn_all2. lia. }
    rewrite Hall in Hrows.
    assert (Hq : Permutation (map Some rows) (map Some df)).
    { rewrite Hrows, <- nth_error_seq. apply Permutation_map, Hp. }
    apply Permutation_sym, Permutation_map_inv in Hq.
    destruct Hq as [l [Hl Hq]]. apply map_Some_inj in Hl. subst l.
    exact Hq.
Qed.

End SamplerFacts.

Lemma sample_too_large (L : Libraries) (module_state : RandomState L)
    (df : list (Row string)) (n : Z) (random_state : option Z) :
  Z.of_nat (List.length df) < n ->
  sample L module_state df n random_state = ([], inl ValueError).
Proof.
  intros Hn. unfold sample, choice.
  destruct (Z.ltb_spec n 0) as [_|_]; [reflexivity|].
  destruct (Z.ltb_spec (Z.of_nat (List.length df)) n) as [_|Hle];
    [reflexivity | lia].
Qed.

Lemma demo_shuffles : shuffles demo.
Proof. intros rs n. apply rotation_perm. Qed.

(** C1, as the code has it.  For a sample size [n] from 0 up to the number
    of rows, the Sampler returns exactly [n] rows, those at [n] distinct
    positions of the table (a draw without replacement), and all rows, in
    some order, when [n] is the number of rows.  When the table has fewer
    rows than [n] it raises [ValueError] and returns nothing. *)
Theorem sample_size_or_error (L : Libraries) (module_state : RandomState L)
    (df : list (Row string)) (n : Z) (random_state : option Z) :
  shuffles L ->
  (0 <= n <= Z.of_nat (List.length df) ->
   exists indices rows,
     sample L module_state df n random_state = ([], inr rows) /\
     List.length rows = Z.to_nat n /\
     NoDup indices /\
     map Some rows = map (nth_error df) indices /\
     (n = Z.of_nat (List.length df) -> Permutation rows df)) /\
  (Z.of_nat (List.length df) < n ->
   sample L module_state df n random_state = ([], inl ValueError)).
Proof.
  intros HL. split.
  - apply sample_rows. exact HL.
  - apply sample_too_large.
Qed.

Lemma sample_size_or_error_witness :
  (exists indices rows,
     sample demo 0 [monday_5am; tuesday_5am; undated] 2 (Some 42)
     = ([], inr rows) /\
     List.length rows = 2%nat /\
     NoDup indices /\
     map Some rows
     = map (nth_error [monday_5am; tuesday_5am; undated]) indices /\
     (2 = 3 -> Permutation rows [monday_5am; tuesday_5am; undated])) /\
  sample demo 0 [monday_5am; tuesday_5am] 3 (Some 42) = ([], inl ValueError).
Proof.
  split.
  - apply (proj1 (@sample_size_or_error demo 0
                    [monday_5am; tuesday_5am; undated] 2 (Some 42)
                    demo_shuffles)).
    simpl. lia.
  - apply (proj2 (@sample_size_or_error demo 0
                    [monday_5am; tuesday_5am] 3 (Some 42) demo_shuffles)).
    simpl. lia.
Defined.

(** C1 as stated fails: on a table of two rows the script's call, with
    [sample_size = 100000], raises [ValueError]; it does not return the
    two rows. *)
Lemma sample_small_table_fails :
  sample demo 0 [monday_5am; tuesday_5am] sample_size (Some 42)
  = ([], inl ValueError) /\
  ~ (exists rows,
       sample demo 0 [monday_5am; tuesday_5am] sample_size (Some 42)
       = ([], inr rows) /\
       List.length rows = 2%nat).
Proof.
  assert (E : sample demo 0 [monday_5am; tuesday_5am] sample_size (Some 42)
              = ([], inl ValueError))
    by reflexivity.
  split; [exact E|].
  intros [rows [H _]]. rewrite E in H. discriminate H.
Qed.

(** With [random_state=None] the draw comes from the module's generator:
    from two of its states the same call can return two samples.  The
    script's call gives a seed, and [sample] then never reads that state. *)
Lemma sample_unseeded_varies :
  sample demo 0 [monday_5am; tuesday_5am] 1 None
  <> sample demo 1 [monday_5am; tuesday_5am] 1 None.
Proof.
  vm_compute. intros H. discriminate H.
Qed.

(** ** The whole run *)

Lemma report_returns (L : Libraries) (df_sample : list (Row string)) :
  snd (report L df_sample) = inr tt.
Proof. reflexivity. Qed.

(** C2, as the code has it.  When the input file is missing the run prints
    the two lines naming the file and the folder it is expected in, shows
    no chart and saves no map, and ends by [exit()] without a code: the
    exit status is 0.  When the file exists and holds at least
    [sample_size] rows the run goes through to its last line and the exit
    status is 0.  When the file exists and holds fewer rows the run stops
    at the sampling step with an uncaught [ValueError], exit status 1. *)
Theorem main_exit_status (L : Libraries)
    (fs : string -> option (list (Row string)))
    (module_state : RandomState L) :
  shuffles L ->
  let run := main L fs module_state in
  (fs file_path = None ->
   run = ([Printed "Libraries imported successfully.";
           Printed "Loading data from 'US_Accidents_March23.csv'...";
           Printed "Error: 'US_Accidents_March23.csv' not found.";
           Printed "Please make sure the 'US_Accidents_March23.csv' file is in the same folder as this script."],
          inl (SystemExit None)) /\
   exit_status (snd run) = 0) /\
  (forall df, fs file_path = Some df ->
     sample_size <= Z.of_nat (List.length df) ->
     snd run = inr tt /\ exit_status (snd run) = 0) /\
  (forall df, fs file_path = Some df ->
     Z.of_nat (List.length df) < sample_size ->
     run = ([Printed "Libraries imported successfully.";
             Printed "Loading data from 'US_Accidents_March23.csv'...";
             Printed "Dataset loaded successfully."],
            inl ValueError) /\
     exit_status (snd run) = 1).
Proof.
  intros HL run. subst run.
  unfold main, load_and_sample, read_csv.
  repeat split.
  - rewrite H. reflexivity.
  - rewrite H. reflexivity.
  - rewrite H.
    destruct (@sample_rows L HL module_state df sample_size (Some 42))
      as [indices [rows [Hs _]]]; [unfold sample_size in *; lia|].
    cbv beta iota zeta delta [bind print ret try_except_FileNotFoundError].
    rewrite Hs.
    pose proof (report_returns L rows) as Hr.
    destruct (report L rows) as [out r].
    simpl in *. exact Hr.
  - rewrite H.
    destruct (@sample_rows L HL module_state df sample_size (Some 42))
      as [indices [rows [Hs _]]]; [unfold sample_size in *; lia|].
    cbv beta iota zeta delta [bind print ret try_except_FileNotFoundError].
    rewrite Hs.
    pose proof (report_returns L rows) as Hr.
    destruct (report L rows) as [out r].
    simpl in *. rewrite Hr. reflexivity.
  - rewrite H.
    cbv beta iota zeta delta [bind print ret try_except_FileNotFoundError].
    rewrite sample_too_large by assumption. reflexivity.
  - rewrite H.
    cbv beta iota zeta delta [bind print ret try_except_FileNotFoundError].
    rewrite sample_too_large by assumption. reflexivity.
Qed.

Lemma main_exit_status_witness :
  snd (main demo no_files 0) = inl (SystemExit None) /\
  main demo small_file 0
  = ([Printed "Libraries imported successfully.";
      Printed "Loading data from 'US_Accidents_March23.csv'...";
      Printed "Dataset loaded successfully."],
     inl ValueError).
Proof.
  split.
  - pose proof (proj1 (@main_exit_status demo no_files 0 demo_shuffles)
                  eq_refl) as [E _].
    rewrite E. reflexivity.
  - apply (proj2 (proj2 (@main_exit_status demo small_file 0 demo_shuffles))
             [monday_5am; tuesday_5am]).
    + reflexivity.
    + reflexivity.
Defined.

(** C2 as stated fails: with the input file missing the run ends through
    [exit()], and the exit status is 0. *)
Lemma missing_file_exit_status_zero :
  no_files file_path = None /\
  snd (main demo no_files 0) = inl (SystemExit None) /\
  exit_status (snd (main demo no_files 0)) = 0.
Proof. repeat split. Qed.

(** * Further properties of the pipeline *)

(** ** Totals *)

Section Totals.

Context {K : Type}.
Variable eq_dec : forall x y : K, {x = y} + {x <> y}.

Lemma list_sum_map_add {A : Type} (f g : A -> nat) (l : list A) :
  list_sum (map (fun x => f x + g x)%nat l)
  = (list_sum (map f l) + list_sum (map g l))%nat.
Proof.
  induction l as [|a l IH]; simpl; [reflexivity | rewrite IH; lia].
Qed.

Lemma indicator_absent (v : K) (keys : list K) :
  ~ In v keys ->
  list_sum (map (fun k => if eq_dec v k then 1 else 0)%nat keys) = 0%nat.
Proof.
  induction keys as [|a keys IH]; simpl; intros Hv; [reflexivity|].
  destruct (eq_dec v a) as [->|_]; [tauto|].
  apply IH. tauto.
Qed.

Lemma indicator_present (v : K) (keys : list K) :
  NoDup keys -> In v keys ->
  list_sum (map (fun k => if eq_dec v k then 1 else 0)%nat keys) = 1%nat.
Proof.
  induction 1 as [|a keys Ha _ IH]; simpl; intros Hv; [contradiction|].
  destruct (eq_dec v a) as [->|Hne].
  - rewrite indicator_absent by exact Ha. reflexivity.
  - apply IH. destruct Hv as [Hv|Hv]; [congruence | exact Hv].
Qed.

(** Counting each of a list of distinct keys that covers the values counts
    every value once. *)
Lemma counts_cover (values keys : list K) :
  NoDup keys -> (forall v, In v values -> In v keys) ->
  list_sum (map (count_occ eq_dec values) keys) = List.length values.
Proof.
  intros Hnd. induction values as [|v values IH]; intros Hcover.
  - clear Hnd Hcover.
    induction keys as [|a keys IHk]; simpl; [reflexivity | exact IHk].
  - transitivity
      (list_sum (map (fun k => (if eq_dec v k then 1 else 0)
                               + count_occ eq_dec values k)%nat keys)).
    + f_equal. apply map_ext. intros k. simpl.
      destruct (eq_dec v k); reflexivity.
    + rewrite list_sum_map_add, indicator_present.
      * rewrite IH; [reflexivity|].
        intros w Hw. apply Hcover. right. exact Hw.
      * exact Hnd.
      * apply Hcover. left. reflexivity.
Qed.

Lemma total_counts (f : K -> nat) (keys : list K) :
  total (map (fun k => (k, f k)) keys) = list_sum (map f keys).
Proof.
  unfold total. rewrite map_map. reflexivity.
Qed.

Lemma total_perm (s1 s2 : Counts K) :
  Permutation s1 s2 -> total s1 = total s2.
Proof.
  unfold total.
  induction 1 as [|p s1 s2 _ IH|p q s|s1 s2 s3 _ IH1 _ IH2]; simpl; lia.
Qed.

Lemma total_firstn (n : nat) (s : Counts K) :
  (total (firstn n s) <= total s)%nat.
Proof.
  rewrite <- (firstn_skipn n s) at 2. unfold total.
  rewrite map_app, list_sum_app. lia.
Qed.

(** A chart whose levels are inferred counts every non-missing cell. *)
Lemma countplot_total (numeric : option (K -> K -> bool))
    (col : list (option K)) :
  total (countplot eq_dec numeric None col) = List.length (dropna col).
Proof.
  rewrite countplot_map, total_counts. apply counts_cover.
  - eapply Permutation_NoDup;
      [symmetry; apply categorical_order_perm | apply unique_NoDup].
  - intros v Hv.
    eapply Permutation_in; [symmetry; apply categorical_order_perm|].
    apply unique_In, Hv.
Qed.

End Totals.

Lemma dropna_length {A B : Type} (f : A -> option B) (keep : A -> bool)
    (l : list A) :
  (forall x, In x l -> notna (f x) = keep x) ->
  List.length (dropna (map f l)) = List.length (filter keep l).
Proof.
  induction l as [|a l IH]; simpl; intros H; [reflexivity|].
  rewrite <- (H a) by auto.
  destruct (f a); simpl; rewrite IH by auto; reflexivity.
Qed.

Lemma filter_all {A : Type} (keep : A -> bool) (l : list A) :
  (forall x, In x l -> keep x = true) -> filter keep l = l.
Proof.
  induction l as [|a l IH]; simpl; intros H; [reflexivity|].
  rewrite (H a) by auto. rewrite IH by auto. reflexivity.
Qed.

(** ** What the Cleaner hands on *)

Lemma clean_row_facts (L : Libraries) (df : list (Row string)) (c : CleanRow) :
  In c (clean L df) ->
  notna (Start_Lat (data c)) = true /\
  notna (Start_Lng (data c)) = true /\
  notna (Weather_Condition (data c)) = true /\
  notna (Sunrise_Sunset (data c)) = true /\
  Hour c = option_map dt_hour (Start_Time (data c)) /\
  DayOfWeek c = option_map dt_day_name (Start_Time (data c)).
Proof.
  intros Hin. apply In_clean in Hin. destruct Hin as [r [_ [Hnotna ->]]].
  unfold subset_notna in Hnotna. rewrite !andb_true_iff in Hnotna.
  unfold cleaned, derive. simpl. tauto.
Qed.

Lemma heat_data_located (l : list CleanRow) :
  (forall c, In c l -> notna (Start_Lat (data c)) = true /\
                       notna (Start_Lng (data c)) = true) ->
  map (fun p => (Some (fst p), Some (snd p))) (heat_data l)
  = map (fun c => (Start_Lat (data c), Start_Lng (data c))) l.
Proof.
  unfold heat_data.
  induction l as [|c l IH]; simpl; intros H; [reflexivity|].
  destruct (H c) as [Hlat Hlng]; [auto|].
  destruct (Start_Lat (data c)); [|discriminate].
  destruct (Start_Lng (data c)); [|discriminate].
  simpl. rewrite IH by auto. reflexivity.
Qed.

Lemma ascending_bounded (lo hi : Z) (l : list Z) :
  StronglySorted Z.lt l -> Forall (fun h => lo <= h <= hi) l ->
  Z.of_nat (List.length l) <= Z.max 0 (hi - lo + 1).
Proof.
  intros Hs. revert lo.
  induction Hs as [|a l _ IH Hall]; intros lo Hb; simpl List.length; [lia|].
  inversion Hb as [|? ? Ha Hb']; subst.
  assert (Hl : Forall (fun h => a + 1 <= h <= hi) l).
  { rewrite Forall_forall in *. intros h Hh.
    specialize (Hall h Hh). specialize (Hb' h Hh). lia. }
  specialize (IH (a + 1) Hl). lia.
Qed.

Lemma by_hour_levels_ascending (df_clean : list CleanRow) :
  StronglySorted Z.lt (map fst (by_hour df_clean)).
Proof.
  unfold by_hour. rewrite countplot_levels, categorical_order_inferred.
  apply ascending_distinct.
  - apply sort_sorted.
    + intros x y H. apply Z.leb_gt in H. apply Z.leb_le. lia.
    + intros x y z H1 H2. apply Z.leb_le in H1, H2. apply Z.leb_le. lia.
  - eapply Permutation_NoDup; [symmetry; apply sort_perm|].
    apply unique_NoDup.
Qed.

(** X2.  The heat-map list has exactly one point per cleaned record, in
    order, with that record's latitude and longitude: the [dropna()] of
    line 128 removes nothing after the filter of line 56. *)
Theorem heat_data_every_record (L : Libraries) (df : list (Row string)) :
  map (fun p => (Some (fst p), Some (snd p))) (heat_data (clean L df))
  = map (fun c => (Start_Lat (data c), Start_Lng (data c))) (clean L df) /\
  List.length (heat_data (clean L df)) = List.length (clean L df).
Proof.
  assert (E : map (fun p => (Some (fst p), Some (snd p)))
                  (heat_data (clean L df))
              = map (fun c => (Start_Lat (data c), Start_Lng (data c)))
                    (clean L df)).
  { apply heat_data_located. intros c Hc.
    pose proof (clean_row_facts _ _ _ Hc). tauto. }
  split; [exact E|].
  apply (f_equal (@List.length _)) in E. rewrite !length_map in E. exact E.
Qed.

(** X3.  The day/night chart counts every cleaned record exactly once:
    its labels are distinct and its counts add up to the number of cleaned
    records. *)
Theorem by_day_night_total (L : Libraries) (df : list (Row string)) :
  NoDup (map fst (by_day_night (clean L df))) /\
  total (by_day_night (clean L df)) = List.length (clean L df).
Proof.
  unfold by_day_night. split.
  - rewrite countplot_levels.
    eapply Permutation_NoDup;
      [symmetry; apply categorical_order_perm | apply unique_NoDup].
  - rewrite countplot_total.
    rewrite dropna_length with (keep := fun _ => true).
    + rewrite filter_all; auto.
    + intros c Hc. pose proof (clean_row_facts _ _ _ Hc). tauto.
Qed.

(** X4.  Over the Cleaner output the hour chart has at most 24 buckets,
    each labelled with an hour from 0 to 23, and its counts add up to the
    number of records whose timestamp parsed. *)
Theorem by_hour_range_and_total (L : Libraries) (df : list (Row string)) :
  (forall h n, In (h, n) (by_hour (clean L df)) -> 0 <= h <= 23) /\
  (List.length (by_hour (clean L df)) <= 24)%nat /\
  total (by_hour (clean L df)) = List.length (filter parsed (clean L df)).
Proof.
  assert (Hrange : forall h n, In (h, n) (by_hour (clean L df)) ->
                               0 <= h <= 23).
  { intros h n Hin. unfold by_hour in Hin. apply In_countplot in Hin.
    destruct Hin as [-> Hpos]. apply rows_with_pos in Hpos.
    destruct Hpos as [c [Hc Hh]].
    destruct (clean_row_facts _ _ _ Hc) as [_ [_ [_ [_ [Hhour _]]]]].
    rewrite Hhour in Hh. destruct (Start_Time (data c)) as [ts|];
      [|discriminate].
    injection Hh as <-. apply dt_hour_range. }
  split; [exact Hrange|]. split.
  - pose proof (by_hour_levels_ascending (clean L df)) as Hs.
    apply ascending_bounded with (lo := 0) (hi := 23) in Hs.
    + rewrite length_map in Hs. lia.
    + apply Forall_forall. intros h Hh. apply in_map_iff in Hh.
      destruct Hh as [[h' n] [<- Hin]]. apply (Hrange _ _ Hin).
  - unfold by_hour. rewrite countplot_total. apply dropna_length.
    intros c Hc.
    destruct (clean_row_facts _ _ _ Hc) as [_ [_ [_ [_ [Hhour _]]]]].
    rewrite Hhour. unfold parsed. destruct (Start_Time (data c)); reflexivity.
Qed.

Lemma weekday_total (cl : list CleanRow) :
  (forall c, In c cl ->
     DayOfWeek c = option_map dt_day_name (Start_Time (data c))) ->
  total (by_day_of_week cl) = List.length (filter parsed cl).
Proof.
  intros Hday. destruct cl as [|c0 l]; [reflexivity|].
  unfold by_day_of_week.
  rewrite countplot_map, categorical_order_given by discriminate.
  rewrite total_counts, counts_cover.
  - apply dropna_length. intros c Hc. rewrite (Hday c Hc). unfold parsed.
    destruct (Start_Time (data c)); reflexivity.
  - apply day_order_NoDup.
  - intros d Hd. apply dropna_In, in_map_iff in Hd.
    destruct Hd as [c [Hd Hc]]. rewrite (Hday c Hc) in Hd.
    destruct (Start_Time (data c)) as [ts|]; [|discriminate].
    injection Hd as <-. apply dt_day_name_canonical.
Qed.

(** X5.  Over the Cleaner output the seven weekday counts add up to the
    number of records whose timestamp parsed: every parsed record falls on
    one of the seven listed days, and the records of null timestamp are the
    only ones left out. *)
Theorem by_day_of_week_total (L : Libraries) (df : list (Row string)) :
  total (by_day_of_week (clean L df))
  = List.length (filter parsed (clean L df)) /\
  total (by_day_of_week (clean L df)) = total (by_hour (clean L df)).
Proof.
  assert (E : total (by_day_of_week (clean L df))
              = List.length (filter parsed (clean L df))).
  { apply weekday_total. intros c Hc.
    apply (clean_row_facts _ _ _ Hc). }
  split; [exact E|].
  rewrite E. unfold by_hour. rewrite countplot_total. symmetry.
  apply dropna_length. intros c Hc.
  destruct (clean_row_facts _ _ _ Hc) as [_ [_ [_ [_ [Hhour _]]]]].
  rewrite Hhour. unfold parsed. destruct (Start_Time (data c)); reflexivity.
Qed.

Lemma rows_with_le {R K : Type} (eq_dec : forall x y : K, {x = y} + {x <> y})
    (col : R -> option K) (k : K) (df : list R) :
  (rows_with eq_dec col k df <= List.length df)%nat.
Proof.
  unfold rows_with.
  induction df as [|r df IH]; simpl; [lia|].
  destruct (holds eq_dec col k r); simpl; lia.
Qed.

Lemma rows_with_app {R K : Type} (eq_dec : forall x y : K, {x = y} + {x <> y})
    (col : R -> option K) (k : K) (df1 df2 : list R) :
  rows_with eq_dec col k (df1 ++ df2)
  = (rows_with eq_dec col k df1 + rows_with eq_dec col k df2)%nat.
Proof.
  unfold rows_with. rewrite filter_app, length_app. reflexivity.
Qed.

(** X6.  Over the Cleaner output the weather counts add up to the number
    of cleaned records; the top-10 list never counts more than that, and
    when at most ten conditions occur it lists them all, so that its counts
    add up to the number of cleaned records too. *)
Theorem by_weather_total (L : Libraries) (df : list (Row string)) :
  sorts L ->
  total (weather_counts L (clean L df)) = List.length (clean L df) /\
  (total (by_weather L (clean L df)) <= List.length (clean L df))%nat /\
  ((List.length (weather_counts L (clean L df)) <= 10)%nat ->
   by_weather L (clean L df) = weather_counts L (clean L df) /\
   total (by_weather L (clean L df)) = List.length (clean L df)).
Proof.
  intros HL.
  assert (E : total (weather_counts L (clean L df))
              = List.length (clean L df)).
  { unfold weather_counts, value_counts.
    rewrite (total_perm (proj1 (HL _))), total_counts, counts_cover.
    - rewrite dropna_length with (keep := fun _ => true).
      + rewrite filter_all; auto.
      + intros c Hc. pose proof (clean_row_facts _ _ _ Hc). tauto.
    - apply unique_NoDup.
    - intros v Hv. apply unique_In, Hv. }
  rewrite (by_weather_firstn (clean L df) HL).
  repeat split.
  - exact E.
  - rewrite <- E. apply total_firstn.
  - apply firstn_all2. assumption.
  - rewrite firstn_all2 by assumption. exact E.
Qed.

Lemma by_weather_total_witness :
  total (weather_counts demo (clean demo [monday_5am; tuesday_5am; undated]))
  = 3%nat.
Proof.
  exact (proj1 (@by_weather_total demo [monday_5am; tuesday_5am; undated]
                  demo_sorts)).
Defined.

(** X7.  The road-feature Series always has three entries, named
    Junction, Crossing and Traffic_Signal, and none of the sums exceeds the
    number of records. *)
Theorem by_road_feature_bounds (L : Libraries) (df_clean : list CleanRow) :
  sorts L ->
  List.length (by_road_feature L df_clean) = 3%nat /\
  (forall name n, In (name, n) (by_road_feature L df_clean) ->
     In name ["Junction"; "Crossing"; "Traffic_Signal"] /\
     (n <= List.length df_clean)%nat).
Proof.
  intros HL. unfold by_road_feature.
  destruct (HL (map (fun f => (fst f,
                               column_sum (map (fun c => snd f (data c))
                                               df_clean)))
                    road_features)) as [Hperm _].
  split.
  - rewrite (Permutation_length Hperm). reflexivity.
  - intros name n Hin. apply (Permutation_in _ Hperm) in Hin.
    simpl in Hin. rewrite !column_sum_rows_with in Hin.
    destruct Hin as [H|[H|[H|[]]]]; inversion H; subst; clear H;
      (split; [simpl; tauto | apply rows_with_le]).
Qed.

Lemma by_road_feature_bounds_witness :
  List.length (by_road_feature demo (clean demo [monday_5am; undated]))
  = 3%nat.
Proof.
  exact (proj1 (@by_road_feature_bounds demo
                  (clean demo [monday_5am; undated]) demo_sorts)).
Defined.

(** ** The sample and the order of the records *)

Lemma nth_error_perm_rows {A : Type} (df rows : list A) (indices : list nat) :
  Permutation indices (seq 0 (List.length df)) ->
  map Some rows = map (nth_error df) indices ->
  Permutation rows df.
Proof.
  intros Hp Hrows.
  assert (Hq : Permutation (map Some rows) (map Some df)).
  { rewrite Hrows, <- nth_error_seq. apply Permutation_map, Hp. }
  apply Permutation_sym, Permutation_map_inv in Hq.
  destruct Hq as [l [Hl Hq]]. apply map_Some_inj in Hl. subst l.
  exact Hq.
Qed.

(** X8.  Whenever the Sampler returns, it has printed nothing, the sample
    size was between 0 and the number of rows, and the sample together with
    some rest makes up the table: every sampled row is a row of the table,
    and no row is sampled more often than it occurs there. *)
Theorem sample_without_replacement (L : Libraries)
    (module_state : RandomState L) (df : list (Row string)) (n : Z)
    (random_state : option Z) (out : list event) (rows : list (Row string)) :
  shuffles L ->
  sample L module_state df n random_state = (out, inr rows) ->
  out = [] /\
  0 <= n <= Z.of_nat (List.length df) /\
  exists rest, Permutation (rows ++ rest)%list df.
Proof.
  intros HL. unfold sample, choice.
  set (rs := match random_state with
             | Some seed => RandomState_of_seed L seed
             | None => module_state
             end).
  destruct (Z.ltb_spec n 0) as [Hneg|Hpos]; [discriminate|].
  destruct (Z.ltb_spec (Z.of_nat (List.length df)) n) as [Hbig|Hle];
    [discriminate|].
  pose proof (HL rs (List.length df)) as Hp.
  set (p := permutation L rs (List.length df)) in *.
  assert (Hvalid : Forall (fun i => (i < List.length df)%nat) p).
  { apply Forall_forall. intros i Hi.
    apply (Permutation_in _ Hp), in_seq in Hi. lia. }
  assert (H1 : Forall (fun i => (i < List.length df)%nat)
                      (firstn (Z.to_nat n) p)).
  { rewrite Forall_forall in *. intros i Hi.
    apply Hvalid. eapply firstn_In, Hi. }
  assert (H2 : Forall (fun i => (i < List.length df)%nat)
                      (skipn (Z.to_nat n) p)).
  { rewrite Forall_forall in *. intros i Hi. apply Hvalid.
    rewrite <- (firstn_skipn (Z.to_nat n) p). apply in_or_app. right.
    exact Hi. }
  destruct (take_rows df H1) as [rows1 [Htake Hrows1]].
  destruct (take_rows df H2) as [rest [_ Hrest]].
  unfold ret, bind. rewrite Htake. intros E. injection E as <- <-.
  split; [reflexivity|]. split; [lia|].
  exists rest. apply nth_error_perm_rows with (indices := p); [exact Hp|].
  rewrite map_app, Hrows1, Hrest, <- map_app, firstn_skipn. reflexivity.
Qed.

Lemma sample_without_replacement_witness :
  exists rest,
    Permutation ([monday_5am; tuesday_5am] ++ rest)%list
                [monday_5am; tuesday_5am; undated].
Proof.
  apply (@sample_without_replacement demo 0
           [monday_5am; tuesday_5am; undated] 2 (Some 42) []
           [monday_5am; tuesday_5am] demo_shuffles).
  reflexivity.
Defined.

Lemma dropna_perm {A : Type} (col col' : list (option A)) :
  Permutation col col' -> Permutation (dropna col) (dropna col').
Proof.
  induction 1 as [|c col col' _ IH|c c' col|col1 col2 col3 _ IH1 _ IH2];
    simpl.
  - reflexivity.
  - destruct c; [apply perm_skip|]; exact IH.
  - destruct c, c'; try reflexivity. apply perm_swap.
  - etransitivity; eassumption.
Qed.

Lemma ascending_unique (l1 l2 : list Z) :
  StronglySorted Z.lt l1 -> StronglySorted Z.lt l2 ->
  (forall x, In x l1 <-> In x l2) -> l1 = l2.
Proof.
  intros H1. revert l2.
  induction H1 as [|a l1 _ IH Ha]; intros l2 H2 Hsame.
  - destruct l2 as [|b l2]; [reflexivity|].
    destruct (proj2 (Hsame b)). left. reflexivity.
  - destruct H2 as [|b l2 H2 Hb].
    + destruct (proj1 (Hsame a)). left. reflexivity.
    + rewrite Forall_forall in Ha, Hb.
      assert (a = b).
      { destruct (proj1 (Hsame a) (or_introl eq_refl)) as [E|Hin];
          [congruence|].
        destruct (proj2 (Hsame b) (or_introl eq_refl)) as [E|Hin'];
          [congruence|].
        specialize (Ha _ Hin'). specialize (Hb _ Hin). lia. }
      subst b. f_equal. apply IH; [exact H2|].
      intros x. split; intros Hx.
      * destruct (proj1 (Hsame x) (or_intror Hx)) as [E|Hin]; [|exact Hin].
        specialize (Ha _ Hx). lia.
      * destruct (proj2 (Hsame x) (or_intror Hx)) as [E|Hin]; [|exact Hin].
        specialize (Hb _ Hx). lia.
Qed.

(** X9.  The hour chart and the weekday chart do not depend on the order
    of the cleaned records.  The day/night chart has the same bars, in an
    order that follows the records, and the heat-map list has the same
    points. *)
Theorem charts_order_independent (c1 c2 : list CleanRow) :
  Permutation c1 c2 ->
  by_hour c1 = by_hour c2 /\
  by_day_of_week c1 = by_day_of_week c2 /\
  Permutation (by_day_night c1) (by_day_night c2) /\
  Permutation (heat_data c1) (heat_data c2).
Proof.
  intros Hp.
  assert (Hcol : forall (K : Type) (col : CleanRow -> option K),
            Permutation (dropna (map col c1)) (dropna (map col c2))).
  { intros K col. apply dropna_perm, Permutation_map, Hp. }
  repeat split.
  - pose proof (by_hour_levels_ascending c1) as H1.
    pose proof (by_hour_levels_ascending c2) as H2.
    unfold by_hour in *. rewrite countplot_levels in H1, H2.
    rewrite !countplot_map.
    rewrite (ascending_unique H1 H2).
    + apply map_ext. intros h. f_equal.
      apply Permutation_count_occ, Hcol.
    + intros h. rewrite !categorical_order_inferred.
      rewrite !sort_In, !unique_In.
      split; apply Permutation_in; [|symmetry]; apply Hcol.
  - unfold by_day_of_week.
    destruct c1 as [|a1 l1], c2 as [|a2 l2].
    + reflexivity.
    + apply Permutation_nil in Hp. discriminate Hp.
    + apply Permutation_sym, Permutation_nil in Hp. discriminate Hp.
    + rewrite !countplot_map, !categorical_order_given by discriminate.
      apply map_ext. intros d. f_equal. apply Permutation_count_occ, Hcol.
  - unfold by_day_night.
    rewrite !countplot_map, !categorical_order_inferred.
    set (v1 := dropna (map (fun c => Sunrise_Sunset (data c)) c1)).
    set (v2 := dropna (map (fun c => Sunrise_Sunset (data c)) c2)).
    assert (Hv : Permutation v1 v2) by apply Hcol.
    rewrite (map_ext (fun k => (k, count_occ string_dec v1 k))
                     (fun k => (k, count_occ string_dec v2 k))).
    + apply Permutation_map, NoDup_Permutation; try apply unique_NoDup.
      intros d. rewrite !unique_In.
      split; apply Permutation_in; [|symmetry]; exact Hv.
    + intros d. f_equal. apply Permutation_count_occ, Hv.
  - unfold heat_data. apply Permutation_flat_map, Hp.
Qed.

Lemma charts_order_independent_witness :
  by_hour (clean demo [monday_5am; undated; tuesday_5am])
  = by_hour (clean demo [tuesday_5am; monday_5am; undated]).
Proof.
  apply (@charts_order_independent
           (clean demo [monday_5am; undated; tuesday_5am])
           (clean demo [tuesday_5am; monday_5am; undated])).
  apply Permutation_sym.
  apply (Permutation_cons_app [_; _] [] _ (Permutation_refl _)).
Defined.

(** X10.  Counting is additive: for two collections of records put one
    after the other, the height of every bar of the hour, weekday and
    day/night charts is the sum of its heights over the two parts, and the
    heat-map list is the two lists one after the other. *)
Theorem charts_additive (c1 c2 : list CleanRow) :
  (forall h, bar Z.eq_dec h (by_hour (c1 ++ c2))
             = (bar Z.eq_dec h (by_hour c1) + bar Z.eq_dec h (by_hour c2))%nat)
  /\
  (forall d, bar string_dec d (by_day_of_week (c1 ++ c2))
             = (bar string_dec d (by_day_of_week c1)
                + bar string_dec d (by_day_of_week c2))%nat) /\
  (forall d, bar string_dec d (by_day_night (c1 ++ c2))
             = (bar string_dec d (by_day_night c1)
                + bar string_dec d (by_day_night c2))%nat) /\
  heat_data (c1 ++ c2) = (heat_data c1 ++ heat_data c2)%list.
Proof.
  repeat split.
  - intros h. unfold by_hour. rewrite !bar_countplot. apply rows_with_app.
  - intros d. rewrite !bar_by_day_of_week.
    destruct (in_dec string_dec d day_order); [apply rows_with_app | reflexivity].
  - intros d. unfold by_day_night. rewrite !bar_countplot.
    apply rows_with_app.
  - unfold heat_data. apply flat_map_app.
Qed.

(** ** The run that goes through *)

(** X12.  When the input file exists and holds at least [sample_size]
    rows, the run samples exactly 100000 of them, prints its eight progress
    lines, shows the five charts in the order hour, weekday, weather,
    day/night, road feature, and then saves the one map file, all computed
    from that sample. *)
Theorem main_success_run (L : Libraries)
    (fs : string -> option (list (Row string)))
    (module_state : RandomState L) (df : list (Row string)) :
  shuffles L ->
  fs file_path = Some df ->
  sample_size <= Z.of_nat (List.length df) ->
  exists df_sample,
    sample L module_state df sample_size (Some 42) = ([], inr df_sample) /\
    List.length df_sample = Z.to_nat sample_size /\
    main L fs module_state
    = ([Printed "Libraries imported successfully.";
        Printed "Loading data from 'US_Accidents_March23.csv'...";
        Printed "Dataset loaded successfully.";
        Printed "Using a random sample of 100000 records for analysis."]
       ++ fst (report L df_sample), inr tt)%list /\
    printed (fst (report L df_sample))
    = [nl "Starting data cleaning and preprocessing...";
       "Data cleaning and preprocessing complete.";
       nl "Generating accident hotspot map... (This may take a moment)";
       "Map saved successfully as 'accident_hotspots.html'. Open this file in a web browser to view the heatmap."] /\
    shown (fst (report L df_sample))
    = ["Accidents by Hour of the Day"; "Accidents by Day of the Week";
       "Top 10 Weather Conditions During Accidents";
       "Accidents: Day vs. Night"; "Accidents by Road Feature"] /\
    saved (fst (report L df_sample)) = ["accident_hotspots.html"].
Proof.
  intros HL Hfs Hlen.
  destruct (@sample_rows L HL module_state df sample_size (Some 42))
    as [indices [rows [Hs [Hsize _]]]]; [unfold sample_size in *; lia|].
  exists rows. split; [exact Hs|]. split.
  { exact Hsize. }
  split.
  { unfold main, load_and_sample, read_csv. rewrite Hfs.
    cbv beta iota zeta delta [bind print ret try_except_FileNotFoundError].
    rewrite Hs.
    pose proof (report_returns L rows) as Hr.
    destruct (report L rows) as [out r].
    simpl in *. rewrite Hr. reflexivity. }
  repeat split.
Qed.

Lemma main_success_run_witness :
  exists df_sample,
    sample demo 0 (repeat monday_5am (Z.to_nat sample_size)) sample_size
           (Some 42) = ([], inr df_sample) /\
    List.length df_sample = Z.to_nat sample_size.
Proof.
  assert (Hfs : full_file file_path
                = Some (repeat monday_5am (Z.to_nat sample_size))).
  { unfold full_file.
    destruct (string_dec file_path file_path); [reflexivity | contradiction]. }
  assert (Hlen : sample_size
                 <= Z.of_nat (List.length
                                (repeat monday_5am (Z.to_nat sample_size)))).
  { rewrite repeat_length, Z2Nat.id; unfold sample_size; lia. }
  destruct (@main_success_run demo full_file 0 _ demo_shuffles Hfs Hlen)
    as [df_sample [Hs [Hn _]]].
  exists df_sample. split; assumption.
Defined.
